(** * Audit PDF generator: layout engine and request handler

    Shallow embedding of [api/generate-audit-pdf.py].

    - Python [str] values are lists of Unicode code points ([text]).
    - Canvas coordinates are exact rationals ([Q]); the program computes
      them in binary64, and every comparison it makes is between a value
      with fractional part 1/27 and the integer 60, so the exact model
      takes the same branches.
    - The drawing backend (reportlab) is modelled by the list of drawing
      calls it receives, page by page. *)

From Stdlib Require Import List String Ascii Bool Arith ZArith NArith QArith Lia Lqa.
From Stdlib Require Import PrimFloat.
Import ListNotations.

Local Open Scope Q_scope.

(** ** Text *)

Module Text.

Definition char := N.
Definition text := list char.

Definition str (s : string) : text :=
  List.map N_of_ascii (list_ascii_of_string s).

Definition SPACE : char := 32%N.
Definition NEWLINE : char := 10%N.
Definition QUOTE : char := 34%N.
Definition EM_DASH : char := 8212%N.

(** [str.isspace] on one code point: the characters [str.split()]
    separates on. *)
Definition isspace (c : char) : bool :=
  ((9 <=? c) && (c <=? 13) || (28 <=? c) && (c <=? 32)
   || (c =? 133) || (c =? 160) || (c =? 5760)
   || (8192 <=? c) && (c <=? 8202)
   || (c =? 8232) || (c =? 8233) || (c =? 8239) || (c =? 8287)
   || (c =? 12288))%N.

(** [s.split()]: the maximal runs of non-whitespace characters.
    [cur] is the word being read. *)
Fixpoint split_from (cur : text) (s : text) : list text :=
  match s with
  | [] => match cur with [] => [] | _ => [cur] end
  | c :: s' =>
      if isspace c
      then match cur with
           | [] => split_from [] s'
           | _ => cur :: split_from [] s'
           end
      else split_from (cur ++ [c]) s'
  end.

Definition split (s : text) : list text := split_from [] s.

(** [s.split(sep)] for a one-character separator: empty pieces are kept
    and the result is never empty. *)
Fixpoint split_on_from (sep : char) (cur : text) (s : text) : list text :=
  match s with
  | [] => [cur]
  | c :: s' =>
      if (c =? sep)%N then cur :: split_on_from sep [] s'
      else split_on_from sep (cur ++ [c]) s'
  end.

Definition split_on (sep : char) (s : text) : list text :=
  split_on_from sep [] s.

(** [sep.join(parts)] for a one-character separator. *)
Fixpoint join (sep : char) (parts : list text) : text :=
  match parts with
  | [] => []
  | [p] => p
  | p :: rest => p ++ sep :: join sep rest
  end.

(** [f"{n:02d}"] for a non-negative integer. *)
Definition digit (n : nat) : char := (48 + N.of_nat (n mod 10))%N.

Fixpoint digits_fuel (fuel n : nat) (acc : text) : text :=
  match fuel with
  | O => acc
  | S fuel' =>
      let acc' := digit n :: acc in
      match (n / 10)%nat with
      | O => acc'
      | m => digits_fuel fuel' m acc'
      end
  end.

Definition format_02d (n : nat) : text :=
  let d := digits_fuel (S n) n [] in
  match d with
  | [_] => 48%N :: d
  | _ => d
  end.

End Text.
Import Text.

(** ** Font metrics and word wrap (reportlab) *)

Inductive Font := Courier | CourierBold.

(** Modelled from the spec: [stringWidth] is reportlab's and its code is
    not in the repository; the specification asks for monospace-font
    text-width measurement.  Both fonts are Courier faces: every glyph is
    600/1000 em wide. *)
Definition stringWidth (t : text) (fontName : Font) (fontSize : Q) : Q :=
  inject_Z (600 * Z.of_nat (List.length t)) * (1 # 1000) * fontSize.

Definition is_nil {A} (l : list A) : bool :=
  match l with [] => true | _ => false end.

(** Modelled from the spec: [simpleSplit] is imported from reportlab and
    its code is not in the repository.  The specification describes it as
    the greedy word wrap: words are packed left to right and a new line
    is started when the next word would exceed the width, measured in
    the given font and size.  The model follows reportlab's function:
    the text is cut at newlines, each piece is cut into its
    whitespace-separated words, a word too wide for a line is left
    whole on a line of its own, and a width of 0 turns wrapping off.

    The loop of [_simpleSplit]: [L] the finished lines, [O] the words of
    the line being filled, [w] its width.  The result is the value of
    the three variables when the loop ends. *)
Fixpoint _simpleSplit_loop (mW ws : Q) (SW : text -> Q)
    (ts : list text) (L : list text) (O : list text) (w : Q)
  : list text * list text * Q :=
  match ts with
  | [] => (L, O, w)
  | t :: ts' =>
      let lt := SW t in
      if Qle_bool (w + ws + lt) mW || is_nil O
      then _simpleSplit_loop mW ws SW ts' L (O ++ [t]) (w + ws + lt)
      else _simpleSplit_loop mW ws SW ts' (L ++ [join SPACE O]) [t] lt
  end.

Definition _simpleSplit (txt : text) (mW : Q) (SW : text -> Q) : list text :=
  let ws := SW [SPACE] in
  let r := _simpleSplit_loop mW ws SW (split txt) [] [] (- ws) in
  let L := fst (fst r) in
  let O := snd (fst r) in
  if is_nil O then L else L ++ [join SPACE O].

(** [simpleSplit(text, fontName, fontSize, maxWidth)]. *)
Definition simpleSplit (t : text) (fontName : Font) (fontSize maxWidth : Q)
  : list text :=
  let lines := split_on NEWLINE t in
  let SW := fun s => stringWidth s fontName fontSize in
  if Qeq_bool maxWidth 0 then lines
  else flat_map (fun l => _simpleSplit l maxWidth SW) lines.

(** ** The canvas *)

(** Brand colours ([HexColor] constants of the module). *)
Inductive Color :=
| GREEN | CYAN | ORANGE | YELLOW | RED | PINK | PURPLE | WHITE
| GRAY_LIGHT | GRAY | GRAY_DIM | GREEN_DARK | CARD | BLACK.

(** One constructor per canvas method the program calls. *)
Inductive Op :=
| SetFillColor (c : Color)
| SetStrokeColor (c : Color)
| SetLineWidth (w : Q)
| SetFont (f : Font) (size : Q)
| SetDash (pattern : option (Q * Q))
| Rect (x y w h : Q) (fill stroke : bool)
| RoundRect (x y w h r : Q) (fill stroke : bool)
| Line (x1 y1 x2 y2 : Q)
| DrawString (x y : Q) (t : text)
| DrawRightString (x y : Q) (t : text)
| DrawCentredString (x y : Q) (t : text).

Record Page := { page_size : Q * Q; page_ops : list Op }.

Definition Document := list Page.

(** Modelled from the spec: [canvas.Canvas] is reportlab's; the
    specification treats it as an external drawing capability with page
    creation and final serialisation.  The model keeps the pages already
    shown and the drawing calls of the page under construction. *)
Record Canvas := {
  filename : text;
  pagesize : Q * Q;
  pages : Document;
  code : list Op
}.

(** The state [generate_pdf] works on: the canvas [c] and the local
    variable [y].  [placed] lists the values [y] has taken on the page
    under construction, [closed] those of the pages already shown. *)
Record State := {
  cv : Canvas;
  cursor : Q;
  placed : list Q;
  closed : list (list Q)
}.

Definition Draw (A : Type) : Type := State -> A * State.

Definition ret {A} (a : A) : Draw A := fun st => (a, st).

Definition bind {A B} (m : Draw A) (k : A -> Draw B) : Draw B :=
  fun st => let r := m st in k (fst r) (snd r).

Notation "x <- m ;; k" := (bind m (fun x => k))
  (at level 61, m at next level, right associativity).
Notation "m ;; k" := (bind m (fun _ => k))
  (at level 61, right associativity).

Definition emit (op : Op) : Draw unit := fun st =>
  (tt, {| cv := {| filename := filename (cv st);
                   pagesize := pagesize (cv st);
                   pages := pages (cv st);
                   code := code (cv st) ++ [op] |};
          cursor := cursor st; placed := placed st; closed := closed st |}).

Definition get_y : Draw Q := fun st => (cursor st, st).

(** [y = v] *)
Definition set_y (v : Q) : Draw unit := fun st =>
  (tt, {| cv := cv st; cursor := v;
          placed := placed st ++ [v]; closed := closed st |}).

(** [y -= d] *)
Definition sub_y (d : Q) : Draw unit := fun st => set_y (cursor st - d) st.

(** [c.showPage()] *)
Definition showPage : Draw unit := fun st =>
  (tt, {| cv := {| filename := filename (cv st);
                   pagesize := pagesize (cv st);
                   pages := pages (cv st)
                            ++ [{| page_size := pagesize (cv st);
                                   page_ops := code (cv st) |}];
                   code := [] |};
          cursor := cursor st;
          placed := [];
          closed := closed st ++ [placed st] |}).

(** [c.save()]: a page with pending drawing calls is shown first. *)
Definition save : Draw unit := fun st =>
  if is_nil (code (cv st)) then (tt, st) else showPage st.

Definition setFillColor c := emit (SetFillColor c).
Definition setStrokeColor c := emit (SetStrokeColor c).
Definition setLineWidth w := emit (SetLineWidth w).
Definition setFont f s := emit (SetFont f s).
Definition setDash p := emit (SetDash p).
Definition rect x y w h fill stroke := emit (Rect x y w h fill stroke).
Definition roundRect x y w h r fill stroke :=
  emit (RoundRect x y w h r fill stroke).
Definition line x1 y1 x2 y2 := emit (Line x1 y1 x2 y2).
Definition drawString x y t := emit (DrawString x y t).
Definition drawRightString x y t := emit (DrawRightString x y t).
Definition drawCentredString x y t := emit (DrawCentredString x y t).

(** [for i, x in enumerate(l): body], counting from [i]. *)
Fixpoint for_enumerate {A} (body : nat -> A -> Draw unit) (i : nat)
    (l : list A) : Draw unit :=
  match l with
  | [] => ret tt
  | x :: rest => body i x ;; for_enumerate body (S i) rest
  end.

Definition len {A} (l : list A) : Q := inject_Z (Z.of_nat (List.length l)).
Definition Qn (n : nat) : Q := inject_Z (Z.of_nat n).

(** ** Page geometry *)

(** [reportlab.lib.pagesizes.letter]: 8.5in x 11in at 72 points per inch. *)
Definition letter : Q * Q := (612, 792).

Definition W : Q := fst letter.
Definition H : Q := snd letter.
Definition ML : Q := 70.
Definition MR : Q := W - 70.
Definition CW : Q := MR - ML.

Definition LOGO_ASPECT : Q := 551 / 1026.

(** ** Drawing helpers *)

Definition bg : Draw unit :=
  setFillColor BLACK ;;
  rect 0 0 W H true false.

Definition draw_logo (x y w : Q) : Draw Q :=
  let h := w * LOGO_ASPECT in
  setFont CourierBold 14 ;;
  setFillColor GREEN ;;
  drawString x (y + h / 2) (str "blok blok studio") ;;
  ret h.

Definition header (pg total : nat) : Draw Q :=
  setFillColor GREEN ;;
  rect 0 (H - 5) W 5 true false ;;
  let logo_w := 80 in
  let logo_h := logo_w * LOGO_ASPECT in
  draw_logo ML (H - 28 - logo_h) logo_w ;;
  setFont Courier 10 ;;
  setFillColor GRAY ;;
  drawRightString MR (H - 48) (format_02d pg ++ str " / " ++ format_02d total) ;;
  let line_y := H - 28 - logo_h - 8 in
  setStrokeColor GREEN ;;
  setLineWidth 1 ;;
  line ML line_y MR line_y ;;
  ret (line_y - 30).

Definition footer : Draw unit :=
  setStrokeColor GREEN ;;
  setLineWidth (1 # 2) ;;
  line ML 42 MR 42 ;;
  setFont Courier 8 ;;
  setFillColor GRAY ;;
  drawCentredString (W / 2) 26
    (str "blokblokstudio.com | @haynes2va | @blokblokstudio").

Definition badge (x y : Q) (t : text) (color : Color) : Draw Q :=
  setFont CourierBold 8 ;;
  let tw := stringWidth t CourierBold 8 in
  let bw := tw + 14 in
  let bh := 18 in
  setFillColor color ;;
  roundRect x (y - bh) bw bh 3 true false ;;
  setFillColor BLACK ;;
  drawString (x + 7) (y - 13) t ;;
  ret bw.

Definition dashed_card (x y w h : Q) (border_color : Color) : Draw unit :=
  setFillColor CARD ;;
  setStrokeColor border_color ;;
  setLineWidth (12 # 10) ;;
  setDash (Some (4, 3)) ;;
  roundRect x y w h 4 true true ;;
  setDash None.

Definition color_bar (x y : Q) (color : Color) (w h : Q) : Draw unit :=
  setFillColor color ;;
  rect x y w h true false.

(** ** Python values decoded from JSON *)

#[local] Unset Elimination Schemes.
Inductive value :=
| VNone
| VBool (b : bool)
| VInt (z : Z)
| VFloat (f : float)
| VStr (t : text)
| VList (l : list value)
| VDict (items : list (text * value)).
#[local] Set Elimination Schemes.

(** [bool(v)] *)
Definition truthy (v : value) : bool :=
  match v with
  | VNone => false
  | VBool b => b
  | VInt z => negb (z =? 0)%Z
  | VFloat f => negb (PrimFloat.eqb f PrimFloat.zero)
  | VStr t => negb (is_nil t)
  | VList l => negb (is_nil l)
  | VDict items => negb (is_nil items)
  end.

(** [all(l)] *)
Definition all (l : list value) : bool := forallb truthy l.

Definition text_eqb (a b : text) : bool :=
  if list_eq_dec N.eq_dec a b then true else false.

(** The items of a decoded JSON object are kept in document order; a
    repeated key keeps its last value, as [json.loads] does. *)
Fixpoint dict_lookup (k : text) (items : list (text * value))
  : option value :=
  match items with
  | [] => None
  | (k', v) :: rest =>
      match dict_lookup k rest with
      | Some v' => Some v'
      | None => if text_eqb k k' then Some v else None
      end
  end.

(** ** The six pages of [generate_pdf] *)

Section Generator.

(** Python's [str.upper] (full Unicode case mapping). *)
Variable upper : text -> text.

Definition total_pages : nat := 6.

(** PAGE 1: COVER *)
Definition page1_cover (name field : text) : Draw unit :=
  bg ;;
  setFillColor GREEN ;;
  rect 0 (H - 5) W 5 true false ;;
  let badge_text := str "CLIENT STRATEGY | BLOK BLOK STUDIO" in
  setFont CourierBold 10 ;;
  let btw := stringWidth badge_text CourierBold 10 in
  let bx := (W - btw - 20) / 2 in
  set_y (H - 70) ;;
  setFillColor GREEN_DARK ;;
  setStrokeColor GREEN ;;
  setLineWidth 1 ;;
  y <- get_y ;;
  roundRect bx y (btw + 20) 28 4 true true ;;
  setFillColor GREEN ;;
  drawCentredString (W / 2) (y + 9) badge_text ;;
  sub_y 40 ;;
  let logo_w := 140 in
  y <- get_y ;;
  logo_h <- draw_logo ((W - logo_w) / 2) (y - logo_w * LOGO_ASPECT) logo_w ;;
  sub_y (logo_h + 50) ;;
  setFont CourierBold 16 ;;
  setFillColor WHITE ;;
  y <- get_y ;;
  drawCentredString (W / 2) y (str "FREE BUSINESS AUDIT") ;;
  sub_y 45 ;;
  setFont CourierBold 28 ;;
  setFillColor GREEN ;;
  y <- get_y ;;
  drawCentredString (W / 2) y (upper name) ;;
  sub_y 35 ;;
  setFont CourierBold 14 ;;
  setFillColor WHITE ;;
  y <- get_y ;;
  drawCentredString (W / 2) y field ;;
  sub_y 35 ;;
  setStrokeColor GREEN ;;
  setLineWidth 2 ;;
  y <- get_y ;;
  line (W / 2 - 60) y (W / 2 + 60) y ;;
  sub_y 30 ;;
  setFont Courier 10 ;;
  setFillColor GRAY ;;
  y <- get_y ;;
  drawCentredString (W / 2) y (str "Custom strategy & automation roadmap") ;;
  sub_y 16 ;;
  y <- get_y ;;
  drawCentredString (W / 2) y
    (str "Prepared for " ++ name ++ str " | " ++ field) ;;
  draw_logo ((W - 110) / 2) 80 110 ;;
  footer ;;
  showPage.

(** The top of pages 2 to 5: background, header, footer, badge, heading
    and subtitle.  The program repeats these statements on each of the
    four pages (lines 154-166, 205-217, 242-254, 279-291), changing only
    the page number, the badge and the two texts. *)
Definition page_top (pg : nat) (badge_text : text) (badge_color : Color)
    (heading subtitle : text) : Draw unit :=
  bg ;;
  y0 <- header pg total_pages ;;
  set_y y0 ;;
  footer ;;
  y <- get_y ;;
  badge ML y badge_text badge_color ;;
  sub_y 46 ;;
  setFont CourierBold 24 ;;
  setFillColor WHITE ;;
  y <- get_y ;;
  drawString ML y heading ;;
  sub_y 22 ;;
  setFont Courier 10 ;;
  setFillColor GRAY ;;
  y <- get_y ;;
  drawString ML y subtitle ;;
  sub_y 28.

(** PAGE 2: THE PROBLEM *)
Definition stats : list (text * text * text * Color) :=
  [ (str "67%",
     str "of businesses using AI saw 20%+ revenue growth within 12 months",
     str "McKinsey, 2025", CYAN);
    (str "78%",
     str "of leads go cold because businesses take 5+ hours to respond",
     str "InsideSales Research", ORANGE);
    (str "10-15 hrs",
     str "per week saved on average when manual workflows are automated",
     str "HubSpot State of AI", YELLOW) ].

Definition stat_height (card : text * text * text * Color) : Q :=
  let '(val, desc, source, color) := card in
  let desc_lines := simpleSplit desc Courier 9 (CW - 30) in
  38 + len desc_lines * 12 + 14.

Fixpoint stats_loop (cards : list (text * text * text * Color))
  : Draw unit :=
  match cards with
  | [] => ret tt
  | (val, desc, source, color) :: rest =>
      let desc_lines := simpleSplit desc Courier 9 (CW - 30) in
      let card_h := 38 + len desc_lines * 12 + 14 in
      y <- get_y ;;
      if Qlt_le_dec (y - card_h) 60 then ret tt
      else
        dashed_card ML (y - card_h) CW card_h color ;;
        color_bar (ML + 10) (y - 10) color 30 3 ;;
        setFont CourierBold 16 ;;
        setFillColor WHITE ;;
        drawString (ML + 14) (y - 28) val ;;
        setFont Courier 9 ;;
        setFillColor GRAY_LIGHT ;;
        for_enumerate
          (fun i ln => drawString (ML + 14) (y - 44 - Qn i * 12) ln)
          0 desc_lines ;;
        setFont Courier 7 ;;
        setFillColor GRAY_DIM ;;
        drawRightString (MR - 14) (y - card_h + 8)
          (str "Source: " ++ source) ;;
        sub_y (card_h + 12) ;;
        stats_loop rest
  end.

Definition page2_problem (field problem : text) : Draw unit :=
  page_top 2 (str "THE CHALLENGE") RED (str "Where You Are Now")
    (str "Based on your audit submission for " ++ field) ;;
  let problem_lines :=
    simpleSplit (QUOTE :: problem ++ [QUOTE]) Courier 10 (CW - 30) in
  let card_h := 40 + len problem_lines * 14 in
  y <- get_y ;;
  dashed_card ML (y - card_h) CW card_h RED ;;
  color_bar (ML + 10) (y - 10) RED 30 3 ;;
  setFont CourierBold 9 ;;
  setFillColor RED ;;
  drawString (ML + 14) (y - 24) (str "YOUR BIGGEST CHALLENGE") ;;
  setFont Courier 10 ;;
  setFillColor GRAY_LIGHT ;;
  for_enumerate
    (fun i ln => drawString (ML + 14) (y - 42 - Qn i * 14) ln)
    0 problem_lines ;;
  sub_y (card_h + 14) ;;
  stats_loop stats ;;
  showPage.

(** PAGE 3: OPPORTUNITIES *)
Definition opportunities (field : text) : list (text * text * Color) :=
  [ (str "Instant Lead Response",
     str "When someone contacts your " ++ field
       ++ str " business, AI responds in under 60 seconds "
       ++ EM_DASH
       :: str " qualifying, answering questions, and booking calls on your calendar. No more lost leads from slow follow-up.",
     GREEN);
    (str "Automated Follow-Up Sequences",
     str "Personalized email sequences that nurture leads on autopilot. Each message adapts based on what the lead cares about. Runs 24/7 without you touching it.",
     CYAN);
    (str "AI-Powered Content System",
     str "Turn one idea into 10 pieces of content across platforms. Blog posts, social media, email newsletters "
       ++ EM_DASH
       :: str " all generated, scheduled, and posted automatically.",
     ORANGE);
    (str "Smart Client Dashboard",
     str "Give your clients a real-time dashboard showing results, progress, and ROI. Builds trust, reduces check-in calls, and makes you look incredibly professional.",
     PURPLE) ].

Definition opportunity_height (card : text * text * Color) : Q :=
  let '(title, desc, color) := card in
  let desc_lines := simpleSplit desc Courier 8 (CW - 30) in
  34 + len desc_lines * 11 + 10.

Fixpoint opportunities_loop (cards : list (text * text * Color))
  : Draw unit :=
  match cards with
  | [] => ret tt
  | (title, desc, color) :: rest =>
      let desc_lines := simpleSplit desc Courier 8 (CW - 30) in
      let card_h := 34 + len desc_lines * 11 + 10 in
      y <- get_y ;;
      if Qlt_le_dec (y - card_h) 60 then ret tt
      else
        dashed_card ML (y - card_h) CW card_h color ;;
        color_bar (ML + 10) (y - 10) color 30 3 ;;
        setFont CourierBold 10 ;;
        setFillColor WHITE ;;
        drawString (ML + 14) (y - 26) title ;;
        setFont Courier 8 ;;
        setFillColor GRAY_LIGHT ;;
        for_enumerate
          (fun i ln => drawString (ML + 14) (y - 42 - Qn i * 11) ln)
          0 desc_lines ;;
        sub_y (card_h + 10) ;;
        opportunities_loop rest
  end.

Definition page3_opportunities (field : text) : Draw unit :=
  page_top 3 (str "OPPORTUNITIES") GREEN (str "What You're Missing")
    (str "AI & automation opportunities tailored to your business") ;;
  opportunities_loop (opportunities field) ;;
  showPage.

(** PAGE 4: ROADMAP *)
Definition phases : list (text * text * text * Color) :=
  [ (str "WEEK 1-2", str "Foundation",
     str "Audit your current tools, set up core integrations, build your AI response system. You'll see results from day one.",
     GREEN);
    (str "WEEK 3-4", str "Automation",
     str "Connect your workflows " ++ EM_DASH
       :: str " lead capture, follow-up sequences, content pipeline. Everything runs without manual input.",
     CYAN);
    (str "WEEK 5-6", str "Optimization",
     str "Analyze what's working, refine messaging, add advanced features. Scale what converts, cut what doesn't.",
     ORANGE);
    (str "ONGOING", str "Growth",
     str "Monthly optimization, new automations as needs evolve, priority support. Your systems get smarter over time.",
     YELLOW) ].

Definition phase_height (card : text * text * text * Color) : Q :=
  let '(tag, title, desc, color) := card in
  let desc_lines := simpleSplit desc Courier 8 (CW - 30) in
  18 + 22 + 14 + len desc_lines * 11 + 18.

Fixpoint phases_loop (cards : list (text * text * text * Color))
  : Draw unit :=
  match cards with
  | [] => ret tt
  | (tag, title, desc, color) :: rest =>
      let desc_lines := simpleSplit desc Courier 8 (CW - 30) in
      let card_h := 18 + 22 + 14 + len desc_lines * 11 + 18 in
      y <- get_y ;;
      if Qlt_le_dec (y - card_h) 60 then ret tt
      else
        dashed_card ML (y - card_h) CW card_h color ;;
        badge (ML + 12) (y - 4) tag color ;;
        setFont CourierBold 11 ;;
        setFillColor WHITE ;;
        drawString (ML + 14) (y - 42) title ;;
        setFont Courier 8 ;;
        setFillColor GRAY_LIGHT ;;
        for_enumerate
          (fun i ln => drawString (ML + 14) (y - 58 - Qn i * 11) ln)
          0 desc_lines ;;
        sub_y (card_h + 10) ;;
        phases_loop rest
  end.

Definition page4_roadmap (name field : text) : Draw unit :=
  page_top 4 (str "YOUR ROADMAP") CYAN (str "The Plan")
    (str "A phased approach for " ++ name ++ str "'s " ++ field
       ++ str " business") ;;
  phases_loop phases ;;
  showPage.

(** PAGE 5: WHY US *)
Definition reasons : list (text * text * Color) :=
  [ (str "We Build Systems, Not Websites",
     str "Most agencies hand you a website and disappear. We build the AI agents, automations, and workflows that actually grow your business.",
     GREEN);
    (str "AI-First Approach",
     str "Every solution leverages AI from the ground up. Not bolted on "
       ++ EM_DASH
       :: str " built into the core of how your business operates.",
     CYAN);
    (str "Results in Weeks, Not Months",
     str "Our phased approach means measurable results within the first 2 weeks. No 6-month timelines with nothing to show.",
     ORANGE);
    (str "Everything Under One Roof",
     str "AI agents, workflow automation, websites, ads, content systems, dashboards "
       ++ EM_DASH
       :: str " all from one team that understands how it connects.",
     PINK);
    (str "You Own Everything",
     str "No vendor lock-in. Everything we build, you own. If you ever want to bring it in-house, you can.",
     YELLOW) ].

Definition reason_height (card : text * text * Color) : Q :=
  let '(title, desc, color) := card in
  let desc_lines := simpleSplit desc Courier 8 (CW - 30) in
  30 + len desc_lines * 11 + 10.

Fixpoint reasons_loop (cards : list (text * text * Color)) : Draw unit :=
  match cards with
  | [] => ret tt
  | (title, desc, color) :: rest =>
      let desc_lines := simpleSplit desc Courier 8 (CW - 30) in
      let card_h := 30 + len desc_lines * 11 + 10 in
      y <- get_y ;;
      if Qlt_le_dec (y - card_h) 60 then ret tt
      else
        dashed_card ML (y - card_h) CW card_h color ;;
        color_bar (ML + 10) (y - 10) color 30 3 ;;
        setFont CourierBold 9 ;;
        setFillColor WHITE ;;
        drawString (ML + 14) (y - 24) title ;;
        setFont Courier 8 ;;
        setFillColor GRAY_LIGHT ;;
        for_enumerate
          (fun i ln => drawString (ML + 14) (y - 38 - Qn i * 11) ln)
          0 desc_lines ;;
        sub_y (card_h + 10) ;;
        reasons_loop rest
  end.

Definition page5_why_us : Draw unit :=
  page_top 5 (str "WHY US") PURPLE (str "Built Different")
    (str "What makes Blok Blok Studio different") ;;
  reasons_loop reasons ;;
  showPage.

(** PAGE 6: CTA *)
Definition page6_cta (field : text) : Draw unit :=
  bg ;;
  y0 <- header 6 total_pages ;;
  set_y y0 ;;
  footer ;;
  let logo_w := 160 in
  y <- get_y ;;
  logo_h <- draw_logo ((W - logo_w) / 2) (y - logo_w * LOGO_ASPECT - 10)
              logo_w ;;
  sub_y (logo_h + 50) ;;
  setFont CourierBold 20 ;;
  setFillColor WHITE ;;
  y <- get_y ;;
  drawCentredString (W / 2) y (str "Ready to Build") ;;
  sub_y 34 ;;
  setFont CourierBold 26 ;;
  setFillColor GREEN ;;
  y <- get_y ;;
  drawCentredString (W / 2) y (str "Systems That Scale?") ;;
  sub_y 24 ;;
  setFont Courier 10 ;;
  setFillColor GRAY ;;
  y <- get_y ;;
  drawCentredString (W / 2) y
    (str "Let's talk about what's possible for your " ++ field
       ++ str " business.") ;;
  sub_y 30 ;;
  setStrokeColor GREEN ;;
  setLineWidth 2 ;;
  y <- get_y ;;
  line (W / 2 - 50) y (W / 2 + 50) y ;;
  sub_y 35 ;;
  let btn_w := 300 in
  let btn_h := 42 in
  let btn_x := (W - btn_w) / 2 in
  setFillColor GREEN ;;
  y <- get_y ;;
  roundRect btn_x (y - btn_h) btn_w btn_h 4 true false ;;
  setFont CourierBold 12 ;;
  setFillColor BLACK ;;
  drawCentredString (W / 2) (y - 18) (str "BOOK YOUR FREE DISCOVERY CALL") ;;
  setFont Courier 9 ;;
  drawCentredString (W / 2) (y - 32) (str "cal.com/chasehaynes/discovery") ;;
  sub_y (btn_h + 14) ;;
  setFillColor BLACK ;;
  setStrokeColor GRAY_DIM ;;
  setLineWidth 1 ;;
  y <- get_y ;;
  roundRect btn_x (y - btn_h) btn_w btn_h 4 true true ;;
  setFont CourierBold 12 ;;
  setFillColor WHITE ;;
  drawCentredString (W / 2) (y - 18) (str "VISIT BLOK BLOK STUDIO") ;;
  setFont Courier 9 ;;
  setFillColor GRAY ;;
  drawCentredString (W / 2) (y - 32) (str "blokblokstudio.com") ;;
  sub_y (btn_h + 14) ;;
  setFillColor BLACK ;;
  setStrokeColor GRAY_DIM ;;
  y <- get_y ;;
  roundRect btn_x (y - btn_h) btn_w btn_h 4 true true ;;
  setFont CourierBold 12 ;;
  setFillColor WHITE ;;
  drawCentredString (W / 2) (y - 18) (str "FOLLOW ON INSTAGRAM") ;;
  setFont Courier 9 ;;
  setFillColor GRAY ;;
  drawCentredString (W / 2) (y - 32) (str "@haynes2va") ;;
  sub_y (btn_h + 24) ;;
  setFont CourierBold 10 ;;
  setFillColor GREEN ;;
  y <- get_y ;;
  drawCentredString (W / 2) y
    (str "Let's build something that works for you.") ;;
  showPage.

(** [canvas.Canvas(output, pagesize=letter)] with [y] not yet assigned. *)
Definition new_canvas (output : text) : State :=
  {| cv := {| filename := output; pagesize := letter;
              pages := []; code := [] |};
     cursor := 0; placed := []; closed := [] |}.

(** [generate_pdf] with [name], [field] and the formatted [problem] of
    type [str].  [email] and [website] are parameters of the function
    that its body does not read, so they are left as decoded.  The result
    is the state after [c.save()]: the document written to [output]. *)
Definition generate_pdf (name : text) (email : value) (field : text)
    (website : value) (problem : text) (output : text) : State :=
  snd ((page1_cover name field ;;
        page2_problem field problem ;;
        page3_opportunities field ;;
        page4_roadmap name field ;;
        page5_why_us ;;
        page6_cta field ;;
        save) (new_canvas output)).

Definition document (st : State) : Document := pages (cv st).

End Generator.

(** ** The request handler *)

Definition bytes := list N.

Inductive Exn :=
| AttributeError
| FileNotFoundError
| OSError.

(** The calls the handler makes on its environment, in order. *)
Inductive Event :=
| NamedTemporaryFile (path : text)
| GeneratePdf (name email field website problem : value) (output : text)
| OpenRead (path : text)
| SendResponse (status : nat)
| SendHeader (key val : text)
| EndHeaders
| WfileWrite (body : text)
| Unlink (path : text).

(** The calls that can raise for reasons outside the program: the
    rendering backend, the file system and the client socket. *)
Inductive Site :=
| site_generate | site_read
| site_send_response | site_send_header | site_end_headers | site_write.

Record Env := {
  tmp_name : text;          (* the name [NamedTemporaryFile] picks *)
  raises : Site -> bool
}.

Record World := {
  fs : list (text * bytes);
  events : list Event
}.

Definition IO (A : Type) : Type := World -> (Exn + A) * World.

Definition io_ret {A} (a : A) : IO A := fun w => (inr a, w).

Definition raise {A} (e : Exn) : IO A := fun w => (inl e, w).

Definition io_bind {A B} (m : IO A) (k : A -> IO B) : IO B := fun w =>
  match m w with
  | (inl e, w') => (inl e, w')
  | (inr a, w') => k a w'
  end.

(** [try: body finally: fin]: [fin] runs on every exit of [body]; an
    exception of [fin] replaces the outcome of [body]. *)
Definition try_finally {A} (body : IO A) (fin : IO unit) : IO A := fun w =>
  match body w with
  | (r, w1) =>
      match fin w1 with
      | (inl e, w2) => (inl e, w2)
      | (inr _, w2) => (r, w2)
      end
  end.

Declare Scope io_scope.
Delimit Scope io_scope with io.
Notation "x <- m ;; k" := (io_bind m (fun x => k))
  (at level 61, m at next level, right associativity) : io_scope.
Notation "m ;; k" := (io_bind m (fun _ => k))
  (at level 61, right associativity) : io_scope.

Definition log (e : Event) : IO unit := fun w =>
  (inr tt, {| fs := fs w; events := events w ++ [e] |}).

Fixpoint fs_lookup (p : text) (files : list (text * bytes)) : option bytes :=
  match files with
  | [] => None
  | (q, b) :: rest => if text_eqb p q then Some b else fs_lookup p rest
  end.

Fixpoint fs_remove (p : text) (files : list (text * bytes))
  : list (text * bytes) :=
  match files with
  | [] => []
  | (q, b) :: rest =>
      if text_eqb p q then fs_remove p rest else (q, b) :: fs_remove p rest
  end.

Definition fs_write (p : text) (b : bytes) : IO unit := fun w =>
  (inr tt, {| fs := (p, b) :: fs_remove p (fs w); events := events w |}).

Definition guard (env : Env) (s : Site) : IO unit :=
  if raises env s then raise OSError else io_ret tt.

Section Handler.

Variable upper : text -> text.

(** [str(v)] for a value that is not a [str]. *)
Variable py_str : value -> text.

(** The serialisation [c.save()] writes. *)
Variable pdf_bytes : Document -> bytes.

(** [base64.b64encode(b).decode('utf-8')] *)
Variable b64encode : bytes -> text.

Variable env : Env.

Local Open Scope io_scope.

(** [f"{v}"] *)
Definition format (v : value) : text :=
  match v with
  | VStr t => t
  | _ => py_str v
  end.

(** [body.get(key, default)]; only a [dict] has the method. *)
Definition dict_get (body : value) (key : text) (default : value)
  : IO value :=
  match body with
  | VDict items =>
      io_ret (match dict_lookup key items with
              | Some v => v
              | None => default
              end)
  | _ => raise AttributeError
  end.

(** [json.dumps({key: val})] for a key and a value without characters
    to escape (the fixed error message, a base64 text). *)
Definition json_dumps (key val : text) : text :=
  str "{" ++ QUOTE :: key ++ QUOTE :: str ": " ++ QUOTE :: val
    ++ QUOTE :: str "}".

Definition send_response (status : nat) : IO unit :=
  log (SendResponse status) ;; guard env site_send_response.

Definition send_header (key val : text) : IO unit :=
  log (SendHeader key val) ;; guard env site_send_header.

Definition end_headers : IO unit :=
  log EndHeaders ;; guard env site_end_headers.

Definition wfile_write (body : text) : IO unit :=
  log (WfileWrite body) ;; guard env site_write.

(** [with tempfile.NamedTemporaryFile(suffix='.pdf', delete=False) as f:
    tmp_path = f.name]: an empty file is left behind under a new name. *)
Definition named_temporary_file : IO text :=
  log (NamedTemporaryFile (tmp_name env)) ;;
  fs_write (tmp_name env) [] ;;
  io_ret (tmp_name env).

(** The call [generate_pdf(name, email, field, website, problem, tmp_path)]
    on decoded values.  [name.upper()] (line 134) needs a [str], and so
    does the text of [drawCentredString] (line 138); both come before
    anything is written, so a value of another type ends the call with
    [AttributeError] and the file untouched.  [problem] is only
    formatted. *)
Definition call_generate_pdf (name email field website problem : value)
    (output : text) : IO unit :=
  log (GeneratePdf name email field website problem output) ;;
  match name, field with
  | VStr n, VStr f =>
      guard env site_generate ;;
      fs_write output
        (pdf_bytes
           (document (generate_pdf upper n email f website (format problem)
                        output)))
  | _, _ => raise AttributeError
  end.

(** [open(path, 'rb').read()] *)
Definition read_file (path : text) : IO bytes :=
  log (OpenRead path) ;;
  guard env site_read ;;
  fun w => match fs_lookup path (fs w) with
           | Some b => (inr b, w)
           | None => (inl FileNotFoundError, w)
           end.

(** [os.unlink(path)] *)
Definition unlink (path : text) : IO unit :=
  log (Unlink path) ;;
  fun w => match fs_lookup path (fs w) with
           | Some _ => (inr tt, {| fs := fs_remove path (fs w);
                                   events := events w |})
           | None => (inl FileNotFoundError, w)
           end.

(** [handler.do_POST], from the decoded request body on. *)
Definition do_POST (body : value) : IO unit :=
  name <- dict_get body (str "name") (VStr []) ;;
  email <- dict_get body (str "email") (VStr []) ;;
  field <- dict_get body (str "field") (VStr []) ;;
  website <- dict_get body (str "website") (VStr []) ;;
  problem <- dict_get body (str "problem") (VStr []) ;;
  if negb (all [name; email; field; problem]) then
    send_response 400 ;;
    send_header (str "Content-Type") (str "application/json") ;;
    end_headers ;;
    wfile_write (json_dumps (str "error") (str "Missing required fields"))
  else
    tmp_path <- named_temporary_file ;;
    try_finally
      (call_generate_pdf name email field website problem tmp_path ;;
       pdf <- read_file tmp_path ;;
       let pdf_b64 := b64encode pdf in
       send_response 200 ;;
       send_header (str "Content-Type") (str "application/json") ;;
       end_headers ;;
       wfile_write (json_dumps (str "pdf") pdf_b64))
      (unlink tmp_path).

End Handler.

Definition world0 (files : list (text * bytes)) : World :=
  {| fs := files; events := [] |}.

(** ** Observations on documents and cursor traces *)

(** A list of cursor values that never increases. *)
Fixpoint descending (l : list Q) : Prop :=
  match l with
  | a :: (b :: _) as t => b <= a /\ descending t
  | _ => True
  end.

(** The stroked rounded rectangles among drawing calls, as
    (bottom edge, height): the card outlines of [dashed_card]. *)
Definition card_rect (op : Op) : list (Q * Q) :=
  match op with
  | RoundRect x y w h r fill true => [(y, h)]
  | _ => []
  end.

Definition card_rects (ops : list Op) : list (Q * Q) :=
  flat_map card_rect ops.

Definition font_size (op : Op) : list Q :=
  match op with
  | SetFont f s => [s]
  | _ => []
  end.

Definition font_sizes (ops : list Op) : list Q := flat_map font_size ops.

(** The truncation policy as the specification words it: before each
    card, stop if [cursor - cardHeight < 60]; otherwise the card takes
    its full height below the cursor and the cursor moves down by the
    height and the gap.  The result lists (bottom edge, height) of the
    cards placed. *)
Fixpoint truncate (y gap : Q) (heights : list Q) : list (Q * Q) :=
  match heights with
  | [] => []
  | h :: rest =>
      if Qlt_le_dec (y - h) 60 then []
      else (y - h, h) :: truncate (y - (h + gap)) gap rest
  end.

(** State after more drawing calls and more cursor moves on the page
    under construction. *)
Definition advance (st : State) (ops : list Op) (ys : list Q) : State :=
  {| cv := {| filename := filename (cv st);
              pagesize := pagesize (cv st);
              pages := pages (cv st);
              code := code (cv st) ++ ops |};
     cursor := last ys (cursor st);
     placed := placed st ++ ys;
     closed := closed st |}.

(** The drawing calls of [for i, x in enumerate(l): c.method(...)]. *)
Fixpoint enum_ops {A} (f : nat -> A -> Op) (i : nat) (l : list A)
  : list Op :=
  match l with
  | [] => []
  | x :: rest => f i x :: enum_ops f (S i) rest
  end.

(** The cursor value [header] returns, and the cursor below the
    subtitle of pages 2 to 5, where the cards begin. *)
Definition header_y : Q := H - 28 - 80 * LOGO_ASPECT - 8 - 30.
Definition cards_y : Q := header_y - 46 - 22 - 28.

Definition page_cards (n : nat) (doc : Document) : list (Q * Q) :=
  match nth_error doc n with
  | Some p => card_rects (page_ops p)
  | None => []
  end.

(** State after [showPage] closes a page that received [ops] and moved
    the cursor through [ys]. *)
Definition shown (st : State) (ops : list Op) (ys : list Q) : State :=
  {| cv := {| filename := filename (cv st);
              pagesize := pagesize (cv st);
              pages := pages (cv st)
                       ++ [{| page_size := pagesize (cv st);
                              page_ops := code (cv st) ++ ops |}];
              code := [] |};
     cursor := last ys (cursor st);
     placed := [];
     closed := closed st ++ [placed st ++ ys] |}.

(** Height of the problem card on page 2 (line 168). *)
Definition problem_card_height (problem : text) : Q :=
  40 + len (simpleSplit (QUOTE :: problem ++ [QUOTE]) Courier 10 (CW - 30))
       * 14.

Definition top_ys : list Q :=
  [header_y; header_y - 46; header_y - 46 - 22; cards_y].


(** ** Lines of wrapped text *)

(** A word as [str.split()] produces it: not empty, no whitespace. *)
Definition word (t : text) : Prop :=
  t <> [] /\ Forall (fun c => isspace c = false) t.

(** Width of a line made of the words [O], as the loop of [_simpleSplit]
    accumulates it from the start of a text. *)
Definition linew (ws : Q) (SW : text -> Q) (O : list text) : Q :=
  fold_left (fun w t => w + ws + SW t) O (- ws).

(** Wrapped again from the start, the words [O] stay on one line. *)
Definition one_line (mW ws : Q) (SW : text -> Q) (O : list text) : Prop :=
  _simpleSplit_loop mW ws SW O [] [] (- ws) = ([], O, linew ws SW O).

Definition line_ok (mW ws : Q) (SW : text -> Q) (l : text) : Prop :=
  exists O, O <> [] /\ Forall word O /\ l = join SPACE O
            /\ one_line mW ws SW O.


(** What the loop of a page did with its cards, given the cursor [y] it
    started from, the heights it computed and the gap between cards:
    the outlines drawn are those the truncation policy places, each
    with its bottom edge at 60 points or more, and their heights are the
    computed heights of the first cards, the others being dropped. *)
Definition cards_truncated (drawn : list (Q * Q)) (y gap : Q)
    (heights : list Q) : Prop :=
  drawn = truncate y gap heights
  /\ Forall (fun r => 60 <= fst r) drawn
  /\ exists dropped, heights = List.map snd drawn ++ dropped.


(** The outlines on page 2 after the problem card: the statistic
    cards. *)
Definition stat_cards_drawn (doc : Document) : list (Q * Q) :=
  tl (page_cards 1 doc).

(** ** Example inputs *)

(** The scenario of the specification: Acme Co, a plumbing business. *)
Definition acme_problem : text :=
  str "We lose leads because no one answers the phone after hours.".


Definition acme (problem : text) : State :=
  generate_pdf (fun t => t) (str "Acme Co") (VStr (str "a@x.com"))
    (str "Plumbing") (VStr (str "acme.com")) problem (str "/tmp/audit.pdf").

(** ** Observations on a run of the handler *)

Definition required : list text :=
  [str "name"; str "email"; str "field"; str "problem"].

(** What [body.get(key, '')] returns on a decoded object. *)
Definition field_value (items : list (text * value)) (key : text) : value :=
  match dict_lookup key items with
  | Some v => v
  | None => VStr []
  end.

(** The key is omitted, or bound to the empty string. *)
Definition missing (items : list (text * value)) (key : text) : Prop :=
  dict_lookup key items = None \/ dict_lookup key items = Some (VStr []).

Definition is_generate (e : Event) : bool :=
  match e with GeneratePdf _ _ _ _ _ _ => true | _ => false end.

Definition is_named_temporary_file (e : Event) : bool :=
  match e with NamedTemporaryFile _ => true | _ => false end.

(** The calls that answer with a status and a JSON body. *)
Definition response (status : nat) (body : text) : list Event :=
  [SendResponse status;
   SendHeader (str "Content-Type") (str "application/json");
   EndHeaders;
   WfileWrite body].

(** The body of the 400 answer: [{"error": "Missing required fields"}]. *)
Definition error_body : text :=
  str "{" ++ QUOTE :: str "error" ++ QUOTE :: str ": " ++ QUOTE
    :: str "Missing required fields" ++ QUOTE :: str "}".

Definition no_socket_fault (env : Env) : Prop :=
  raises env site_send_response = false
  /\ raises env site_send_header = false
  /\ raises env site_end_headers = false
  /\ raises env site_write = false.

Definition no_fault (env : Env) : Prop := forall s, raises env s = false.

(** Stand-ins for the library functions, to run the handler on examples. *)
Definition ex_py_str (v : value) : text := str "?".
Definition ex_pdf_bytes (doc : Document) : bytes :=
  List.map (fun p => N.of_nat (List.length (page_ops p))) doc.
Definition ex_b64encode (b : bytes) : text := b.

Definition ex_env (faulty : list Site) : Env :=
  {| tmp_name := str "/tmp/tmpab12cd.pdf";
     raises := fun s =>
       existsb (fun s' => match s, s' with
                          | site_generate, site_generate
                          | site_read, site_read
                          | site_send_response, site_send_response
                          | site_send_header, site_send_header
                          | site_end_headers, site_end_headers
                          | site_write, site_write => true
                          | _, _ => false
                          end) faulty |}.

Definition ex_POST (faulty : list Site) (body : value) : (Exn + unit) * World :=
  do_POST (fun t => t) ex_py_str ex_pdf_bytes ex_b64encode (ex_env faulty)
    body (world0 []).

Definition acme_body (website : list (text * value)) : value :=
  VDict ([(str "name", VStr (str "Acme Co"));
          (str "email", VStr (str "a@x.com"));
          (str "field", VStr (str "Plumbing"))]
         ++ website
         ++ [(str "problem", VStr acme_problem)]).

(** A file present before an action is still there after it. *)
Definition keeps {A} (p : text) (m : IO A) : Prop :=
  forall w, fs_lookup p (fs w) <> None -> fs_lookup p (fs (snd (m w))) <> None.

(** An action only adds calls to the log, all of them satisfying [P]. *)
Definition logs {A} (P : Event -> bool) (m : IO A) : Prop :=
  forall w, exists evs, events (snd (m w)) = events w ++ evs
                        /\ forallb P evs = true.

Definition not_named_temporary_file (e : Event) : bool :=
  negb (is_named_temporary_file e).

Definition not_generate (e : Event) : bool := negb (is_generate e).

Definition not_status_400 (e : Event) : bool :=
  match e with
  | SendResponse status => negb (status =? 400)%nat
  | _ => true
  end.

(** The answer of the handler: status, content type, body
    (lines 392-395 and 408-411). *)
Definition respond (env : Env) (status : nat) (body : text) : IO unit :=
  io_bind (send_response env status) (fun _ =>
  io_bind (send_header env (str "Content-Type") (str "application/json"))
    (fun _ =>
  io_bind (end_headers env) (fun _ => wfile_write env body))).

(** The [try] block of the handler (lines 403-411). *)
Definition try_block (upper : text -> text) (py_str : value -> text)
    (pdf_bytes : Document -> bytes) (b64encode : bytes -> text) (env : Env)
    (name email field website problem : value) (tmp_path : text) : IO unit :=
  io_bind (call_generate_pdf upper py_str pdf_bytes env name email field
             website problem tmp_path) (fun _ =>
  io_bind (read_file env tmp_path) (fun pdf =>
  respond env 200 (json_dumps (str "pdf") (b64encode pdf)))).

(** The request of the specification with an empty name. *)
Definition nameless_body : value :=
  VDict [(str "name", VStr []);
         (str "email", VStr (str "a@x.com"));
         (str "field", VStr (str "Plumbing"));
         (str "problem", VStr (str "x"))].

(** A request whose name is a single space. *)
Definition blank_name_items : list (text * value) :=
  [(str "name", VStr [SPACE]);
   (str "email", VStr (str "a@x.com"));
   (str "field", VStr (str "Plumbing"));
   (str "problem", VStr acme_problem)].

(** A request whose name is the number 0. *)
Definition zero_name_items : list (text * value) :=
  [(str "name", VInt 0);
   (str "email", VStr (str "a@x.com"));
   (str "field", VStr (str "Plumbing"));
   (str "problem", VStr acme_problem)].

(** The values of JSON that Python takes for false. *)
Definition json_falsy : list value :=
  [VInt 0; VBool false; VNone; VList []; VDict []].

(** ** Card height *)

(** The height of a card (lines 186, 226, 263, 301): fixed chrome, one
    line height per wrapped line, fixed padding. *)
Definition card_height (chrome line_h pad : Q) (font : Font) (size width : Q)
    (t : text) : Q :=
  chrome + len (simpleSplit t font size width) * line_h + pad.

(** Two words of 50 letters, and one word of 102 letters. *)
Definition two_words : text :=
  repeat 120%N 50%nat ++ SPACE :: repeat 120%N 50%nat.
Definition one_long_word : text := repeat 120%N 102%nat.

(** The words [str.split()] returns: those finished, and the last one
    when the text does not end in whitespace. *)
Definition opt_word (w : text) : list text :=
  match w with [] => [] | _ => [w] end.

(** Number of lines the loop of [_simpleSplit] has produced in a state. *)
Definition nlines (r : list text * list text * Q) : nat :=
  (List.length (fst (fst r)) + if is_nil (snd (fst r)) then 0 else 1)%nat.

(** ** Further observations *)

(** The calls that write the HTTP answer. *)
Definition is_socket_call (e : Event) : bool :=
  match e with
  | SendResponse _ | SendHeader _ _ | EndHeaders | WfileWrite _ => true
  | _ => false
  end.

Definition is_str (v : value) : bool :=
  match v with VStr _ => true | _ => false end.

(** A request whose name is the number 5. *)
Definition number_name_items : list (text * value) :=
  [(str "name", VInt 5);
   (str "email", VStr (str "a@x.com"));
   (str "field", VStr (str "Plumbing"));
   (str "problem", VStr acme_problem)].

(** A problem statement of 35 words of 72 letters: it wraps to 35 lines. *)
Definition overflowing_problem : text :=
  join SPACE (repeat (repeat 120%N 72%nat) 35%nat).

(** The wrapped lines of the problem card (line 167). *)
Definition problem_lines (problem : text) : list text :=
  simpleSplit (QUOTE :: problem ++ [QUOTE]) Courier 10 (CW - 30).

(** Cards stacked downwards from [top]: the top edge of the first card
    is at [top], and the top edge of each next card is [gap] below the
    bottom edge of the card before it. *)
Fixpoint stacked (top gap : Q) (cards : list (Q * Q)) : Prop :=
  match cards with
  | [] => True
  | (b, h) :: rest => b + h == top /\ stacked (b - gap) gap rest
  end.

(** What can be said of the width of a wrapped line: it is within the
    budget, or the line is a single word. *)
Definition fits_or_single (font : Font) (size mW : Q) (l : text) : Prop :=
  stringWidth l font size <= mW \/ List.length (split l) = 1%nat.

(** Total width of the words [O], each with the space before it. *)
Definition sumw (ws : Q) (SW : text -> Q) (O : list text) : Q :=
  fold_right (fun t acc => ws + SW t + acc) 0 O.

(** The baseline of a text drawing call. *)
Definition text_baseline (op : Op) : option Q :=
  match op with
  | DrawString _ y _ | DrawRightString _ y _ | DrawCentredString _ y _ =>
      Some y
  | _ => None
  end.

(** A text drawing call has its baseline between the bottom and the top
    edge of one of the cards (bottom edge, height). *)
Definition inside_a_card (cards : list (Q * Q)) (op : Op) : Prop :=
  match text_baseline op with
  | Some ty => Exists (fun r => fst r <= ty /\ ty <= fst r + snd r) cards
  | None => True
  end.

(** A loop draws every text inside one of the cards it draws. *)
Definition texts_inside_cards {A} (loop : list A -> Draw unit) : Prop :=
  forall cards st, exists ops ys,
    loop cards st = (tt, advance st ops ys)
    /\ Forall (inside_a_card (card_rects ops)) ops.

(** The wrapped description of the first opportunity card, the only one
    whose text contains the [field] of the request (line 219). *)
Definition first_opportunity_lines (field : text) : list text :=
  match opportunities field with
  | (_, desc, _) :: _ => simpleSplit desc Courier 8 (CW - 30)
  | [] => []
  end.

(** A request whose email is [true] and whose problem is the number 7. *)
Definition odd_types_items : list (text * value) :=
  [(str "name", VStr (str "Acme Co"));
   (str "email", VBool true);
   (str "field", VStr (str "Plumbing"));
   (str "problem", VInt 7)].

(** * Lemmas *)

(** ** Lists of cursor values *)

Lemma len_nonneg {A} (l : list A) : 0 <= len l.
Proof.
  unfold len. change 0 with (inject_Z 0).
  rewrite <- Zle_Qle. apply Nat2Z.is_nonneg.
Qed.

Lemma last_default (l : list Q) (x d d' : Q) :
  last (x :: l) d = last (x :: l) d'.
Proof.
  revert x. induction l as [|a l IH]; intro x; [reflexivity|].
  change (last (a :: l) d = last (a :: l) d'). apply IH.
Qed.

Lemma last_app_last (ys1 ys2 : list Q) (c : Q) :
  last (ys1 ++ ys2) c = last ys2 (last ys1 c).
Proof.
  destruct ys2 as [|b l]; [rewrite app_nil_r; reflexivity|].
  induction ys1 as [|a ys1 IH].
  - apply last_default.
  - rewrite (last_default l b (last (a :: ys1) c) (last ys1 c)).
    rewrite <- IH. cbn [app].
    destruct (ys1 ++ b :: l) eqn:E; [destruct ys1; discriminate E|].
    reflexivity.
Qed.

Lemma descending_app (c : Q) (ys1 ys2 : list Q) :
  descending (c :: ys1) ->
  descending (last ys1 c :: ys2) ->
  descending (c :: ys1 ++ ys2).
Proof.
  revert c. induction ys1 as [|a l IH]; intros c H1 H2.
  - exact H2.
  - destruct H1 as [Hac Hl]. split; [exact Hac|].
    apply IH; [exact Hl|].
    destruct l as [|b l]; [exact H2|].
    rewrite (last_default l b a c). exact H2.
Qed.

Lemma descending_tail (a : Q) (l : list Q) :
  descending (a :: l) -> descending l.
Proof. destruct l; [trivial|]. intros [_ Hd]. exact Hd. Qed.

(** ** Canvas states *)

Lemma advance_advance st o1 y1 o2 y2 :
  advance (advance st o1 y1) o2 y2 = advance st (o1 ++ o2) (y1 ++ y2).
Proof.
  unfold advance; cbn [cv cursor placed closed filename pagesize pages code].
  rewrite last_app_last, !app_assoc. reflexivity.
Qed.

Lemma advance_nil st : advance st [] [] = st.
Proof.
  destruct st as [[fn ps pg cd] y pl cl].
  unfold advance; cbn. rewrite !app_nil_r. reflexivity.
Qed.

Lemma emit_advance op st : emit op st = (tt, advance st [op] []).
Proof.
  unfold emit, advance; cbn [last]. rewrite app_nil_r. reflexivity.
Qed.

Lemma set_y_advance v st : set_y v st = (tt, advance st [] [v]).
Proof.
  destruct st as [[fn ps pg cd] y pl cl].
  unfold set_y, advance; cbn. rewrite app_nil_r. reflexivity.
Qed.

Lemma card_rects_app a b : card_rects (a ++ b) = card_rects a ++ card_rects b.
Proof. apply flat_map_app. Qed.

Lemma font_sizes_app a b : font_sizes (a ++ b) = font_sizes a ++ font_sizes b.
Proof. apply flat_map_app. Qed.

Lemma for_enumerate_emit {A} (f : nat -> A -> Op) (l : list A) :
  forall i st,
    for_enumerate (fun i x => emit (f i x)) i l st
    = (tt, advance st (enum_ops f i l) []).
Proof.
  induction l as [|x rest IH]; intros i st.
  - cbn [for_enumerate enum_ops]. unfold ret. rewrite advance_nil. reflexivity.
  - cbn [for_enumerate enum_ops]. unfold bind.
    rewrite emit_advance. cbn [fst snd].
    rewrite IH, advance_advance. reflexivity.
Qed.

Lemma enum_ops_no_cards {A} (f : nat -> A -> Op) (l : list A) :
  (forall i x, card_rect (f i x) = []) ->
  forall i, card_rects (enum_ops f i l) = [].
Proof.
  intros Hf. induction l as [|x rest IH]; intro i; [reflexivity|].
  cbn [enum_ops]. change (card_rects (f i x :: enum_ops f (S i) rest))
    with (card_rect (f i x) ++ card_rects (enum_ops f (S i) rest)).
  rewrite Hf, IH. reflexivity.
Qed.

Lemma enum_ops_no_fonts {A} (f : nat -> A -> Op) (l : list A) :
  (forall i x, font_size (f i x) = []) ->
  forall i, font_sizes (enum_ops f i l) = [].
Proof.
  intros Hf. induction l as [|x rest IH]; intro i; [reflexivity|].
  cbn [enum_ops]. change (font_sizes (f i x :: enum_ops f (S i) rest))
    with (font_size (f i x) ++ font_sizes (enum_ops f (S i) rest)).
  rewrite Hf, IH. reflexivity.
Qed.

(** ** The truncation policy *)

Lemma truncate_floor (y gap : Q) (heights : list Q) :
  Forall (fun r => 60 <= fst r) (truncate y gap heights).
Proof.
  revert y. induction heights as [|h rest IH]; intro y; cbn [truncate].
  - constructor.
  - destruct (Qlt_le_dec (y - h) 60) as [Hlt|Hge]; constructor.
    + exact Hge.
    + apply IH.
Qed.

Lemma truncate_heights (y gap : Q) (heights : list Q) :
  exists rest, heights = List.map snd (truncate y gap heights) ++ rest.
Proof.
  revert y. induction heights as [|h hs IH]; intro y; cbn [truncate].
  - exists []. reflexivity.
  - destruct (Qlt_le_dec (y - h) 60) as [Hlt|Hge].
    + exists (h :: hs). reflexivity.
    + destruct (IH (y - (h + gap))) as [rest E].
      exists rest. cbn [List.map snd app]. rewrite <- E. reflexivity.
Qed.

(** ** Running drawing code

    One rewriting rule per statement form; the state reached is kept in
    the shape [advance st ops ys]. *)

Lemma bind_run {A B} (m : Draw A) (k : A -> Draw B) st :
  bind m k st = k (fst (m st)) (snd (m st)).
Proof. reflexivity. Qed.

Lemma bind_bind {A B C} (m : Draw A) (k1 : A -> Draw B) (k2 : B -> Draw C) st :
  bind (bind m k1) k2 st = bind m (fun a => bind (k1 a) k2) st.
Proof. reflexivity. Qed.

Lemma bind_ret {A B} (a : A) (k : A -> Draw B) st :
  bind (ret a) k st = k a st.
Proof. reflexivity. Qed.

Lemma bind_emit {B} op (k : unit -> Draw B) st :
  bind (emit op) k st = k tt (advance st [op] []).
Proof. unfold bind. rewrite emit_advance. reflexivity. Qed.

Lemma bind_get_y {B} (k : Q -> Draw B) st :
  bind get_y k st = k (cursor st) st.
Proof. reflexivity. Qed.

Lemma bind_set_y {B} v (k : unit -> Draw B) st :
  bind (set_y v) k st = k tt (advance st [] [v]).
Proof. unfold bind. rewrite set_y_advance. reflexivity. Qed.

Lemma sub_y_advance d st :
  sub_y d st = (tt, advance st [] [cursor st - d]).
Proof. unfold sub_y. apply set_y_advance. Qed.

Lemma bind_sub_y {B} d (k : unit -> Draw B) st :
  bind (sub_y d) k st = k tt (advance st [] [cursor st - d]).
Proof. unfold bind. rewrite sub_y_advance. reflexivity. Qed.

Lemma bind_for_enumerate {A B} (f : nat -> A -> Op) i l
    (k : unit -> Draw B) st :
  bind (for_enumerate (fun i x => emit (f i x)) i l) k st
  = k tt (advance st (enum_ops f i l) []).
Proof. unfold bind. rewrite for_enumerate_emit. reflexivity. Qed.

Lemma cursor_advance st ops ys :
  cursor (advance st ops ys) = last ys (cursor st).
Proof. reflexivity. Qed.

Ltac draw_unfold :=
  unfold page_top, header, footer, bg, badge, dashed_card, color_bar,
    draw_logo, setFillColor, setStrokeColor, setLineWidth, setFont, setDash,
    rect, roundRect, line, drawString, drawRightString, drawCentredString.

Ltac draw_step :=
  first
    [ rewrite bind_bind
    | rewrite bind_ret
    | rewrite bind_emit
    | rewrite bind_get_y
    | rewrite bind_set_y
    | rewrite bind_sub_y
    | rewrite bind_for_enumerate
    | rewrite emit_advance
    | rewrite sub_y_advance
    | rewrite set_y_advance ];
  cbv beta;
  rewrite ?advance_advance, ?cursor_advance;
  rewrite <- ?app_assoc, ?app_nil_r;
  cbn [app last].

Ltac draw_run := draw_unfold; cbv beta zeta; repeat draw_step.

(** The top of pages 2 to 5 places the cursor at [cards_y] and draws no
    card outline. *)
Lemma page_top_run pg badge_text badge_color heading subtitle st :
  exists ops,
    page_top pg badge_text badge_color heading subtitle st
    = (tt, advance st ops
             top_ys)
    /\ card_rects ops = []
    /\ font_sizes ops = [14; 10; 8; 8; 24; 10].
Proof.
  eexists. split.
  - draw_run. reflexivity.
  - split; reflexivity.
Qed.

(** ** The card loops of pages 2 to 5

    The four loops have one shape: a guard on [y - card_h], the drawing
    calls of one card, then [y -= card_h + gap].  The facts about that
    shape are proved once and then read off for each loop. *)

Section CardLoop.

Context {A : Type}.
Variable height : A -> Q.
Variable gap : Q.
Variable fonts : list Q.
Variable loop : list A -> Draw unit.

Hypothesis gap_nonneg : 0 <= gap.
Hypothesis height_nonneg : forall c, 0 <= height c.
Hypothesis loop_nil : forall st, loop [] st = (tt, st).
Hypothesis loop_stop : forall c rest st,
  cursor st - height c < 60 -> loop (c :: rest) st = (tt, st).
Hypothesis loop_draw : forall c rest st,
  60 <= cursor st - height c ->
  exists ops,
    loop (c :: rest) st
    = loop rest (advance st ops [cursor st - (height c + gap)])
    /\ card_rects ops = [(cursor st - height c, height c)]
    /\ Forall (fun s => In s fonts) (font_sizes ops).

Lemma loop_run (cards : list A) :
  forall st, exists ops ys,
    loop cards st = (tt, advance st ops ys)
    /\ card_rects ops = truncate (cursor st) gap (List.map height cards)
    /\ descending (cursor st :: ys)
    /\ Forall (fun s => In s fonts) (font_sizes ops).
Proof.
  induction cards as [|c rest IH]; intro st.
  - exists [], []. rewrite loop_nil, advance_nil.
    repeat split; constructor.
  - cbn [List.map truncate].
    destruct (Qlt_le_dec (cursor st - height c) 60) as [Hlt|Hge].
    + exists [], []. rewrite (loop_stop _ _ _ Hlt), advance_nil.
      repeat split; constructor.
    + destruct (loop_draw c rest st Hge) as (o1 & E1 & C1 & F1).
      destruct (IH (advance st o1 [cursor st - (height c + gap)]))
        as (o2 & ys & E2 & C2 & D2 & F2).
      exists (o1 ++ o2), ((cursor st - (height c + gap)) :: ys).
      rewrite E1, E2, advance_advance.
      rewrite cursor_advance in C2, D2. cbn [last] in C2, D2.
      repeat split.
      * rewrite card_rects_app, C1, C2. reflexivity.
      * pose proof (height_nonneg c). lra.
      * exact D2.
      * rewrite font_sizes_app. apply Forall_app. split; assumption.
Qed.

End CardLoop.

Lemma card_rects_cons op l : card_rects (op :: l) = card_rect op ++ card_rects l.
Proof. reflexivity. Qed.

Lemma font_sizes_cons op l : font_sizes (op :: l) = font_size op ++ font_sizes l.
Proof. reflexivity. Qed.

Lemma card_rects_nil : card_rects [] = [].
Proof. reflexivity. Qed.

Lemma font_sizes_nil : font_sizes [] = [].
Proof. reflexivity. Qed.

Ltac ops_norm :=
  repeat first
    [ rewrite card_rects_cons | rewrite card_rects_app
    | rewrite card_rects_nil
    | rewrite font_sizes_cons | rewrite font_sizes_app
    | rewrite font_sizes_nil
    | rewrite enum_ops_no_cards by reflexivity
    | rewrite enum_ops_no_fonts by reflexivity ];
  cbn [card_rect font_size app].

Ltac fonts_ok :=
  repeat (apply Forall_cons; [cbn [In]; tauto|]); apply Forall_nil.

Lemma stat_height_nonneg c : 0 <= stat_height c.
Proof.
  destruct c as [[[val desc] source] color]. cbn [stat_height].
  pose proof (len_nonneg (simpleSplit desc Courier 9 (CW - 30))). lra.
Qed.

Lemma opportunity_height_nonneg c : 0 <= opportunity_height c.
Proof.
  destruct c as [[title desc] color]. cbn [opportunity_height].
  pose proof (len_nonneg (simpleSplit desc Courier 8 (CW - 30))). lra.
Qed.

Lemma phase_height_nonneg c : 0 <= phase_height c.
Proof.
  destruct c as [[[tag title] desc] color]. cbn [phase_height].
  pose proof (len_nonneg (simpleSplit desc Courier 8 (CW - 30))). lra.
Qed.

Lemma reason_height_nonneg c : 0 <= reason_height c.
Proof.
  destruct c as [[title desc] color]. cbn [reason_height].
  pose proof (len_nonneg (simpleSplit desc Courier 8 (CW - 30))). lra.
Qed.

Lemma stats_loop_run cards st :
  exists ops ys,
    stats_loop cards st = (tt, advance st ops ys)
    /\ card_rects ops = truncate (cursor st) 12 (List.map stat_height cards)
    /\ descending (cursor st :: ys)
    /\ Forall (fun s => In s [16; 9; 7]) (font_sizes ops).
Proof.
  apply loop_run; clear cards st.
  - lra.
  - apply stat_height_nonneg.
  - reflexivity.
  - intros [[[val desc] source] color] rest st Hlt.
    cbn [stats_loop stat_height] in *. rewrite bind_get_y.
    destruct (Qlt_le_dec _ 60) as [_|Hge]; [reflexivity|lra].
  - intros [[[val desc] source] color] rest st Hge.
    cbn [stats_loop stat_height] in *. rewrite bind_get_y.
    destruct (Qlt_le_dec _ 60) as [Hlt|_]; [lra|].
    eexists. split; [draw_run; reflexivity|].
    split; [ops_norm; reflexivity | ops_norm; fonts_ok].
Qed.

Lemma opportunities_loop_run cards st :
  exists ops ys,
    opportunities_loop cards st = (tt, advance st ops ys)
    /\ card_rects ops
       = truncate (cursor st) 10 (List.map opportunity_height cards)
    /\ descending (cursor st :: ys)
    /\ Forall (fun s => In s [10; 8]) (font_sizes ops).
Proof.
  apply loop_run; clear cards st.
  - lra.
  - apply opportunity_height_nonneg.
  - reflexivity.
  - intros [[title desc] color] rest st Hlt.
    cbn [opportunities_loop opportunity_height] in *. rewrite bind_get_y.
    destruct (Qlt_le_dec _ 60) as [_|Hge]; [reflexivity|lra].
  - intros [[title desc] color] rest st Hge.
    cbn [opportunities_loop opportunity_height] in *. rewrite bind_get_y.
    destruct (Qlt_le_dec _ 60) as [Hlt|_]; [lra|].
    eexists. split; [draw_run; reflexivity|].
    split; [ops_norm; reflexivity | ops_norm; fonts_ok].
Qed.

Lemma phases_loop_run cards st :
  exists ops ys,
    phases_loop cards st = (tt, advance st ops ys)
    /\ card_rects ops = truncate (cursor st) 10 (List.map phase_height cards)
    /\ descending (cursor st :: ys)
    /\ Forall (fun s => In s [8; 11]) (font_sizes ops).
Proof.
  apply loop_run; clear cards st.
  - lra.
  - apply phase_height_nonneg.
  - reflexivity.
  - intros [[[tag title] desc] color] rest st Hlt.
    cbn [phases_loop phase_height] in *. rewrite bind_get_y.
    destruct (Qlt_le_dec _ 60) as [_|Hge]; [reflexivity|lra].
  - intros [[[tag title] desc] color] rest st Hge.
    cbn [phases_loop phase_height] in *. rewrite bind_get_y.
    destruct (Qlt_le_dec _ 60) as [Hlt|_]; [lra|].
    eexists. split; [draw_run; reflexivity|].
    split; [ops_norm; reflexivity | ops_norm; fonts_ok].
Qed.

Lemma reasons_loop_run cards st :
  exists ops ys,
    reasons_loop cards st = (tt, advance st ops ys)
    /\ card_rects ops = truncate (cursor st) 10 (List.map reason_height cards)
    /\ descending (cursor st :: ys)
    /\ Forall (fun s => In s [9; 8]) (font_sizes ops).
Proof.
  apply loop_run; clear cards st.
  - lra.
  - apply reason_height_nonneg.
  - reflexivity.
  - intros [[title desc] color] rest st Hlt.
    cbn [reasons_loop reason_height] in *. rewrite bind_get_y.
    destruct (Qlt_le_dec _ 60) as [_|Hge]; [reflexivity|lra].
  - intros [[title desc] color] rest st Hge.
    cbn [reasons_loop reason_height] in *. rewrite bind_get_y.
    destruct (Qlt_le_dec _ 60) as [Hlt|_]; [lra|].
    eexists. split; [draw_run; reflexivity|].
    split; [ops_norm; reflexivity | ops_norm; fonts_ok].
Qed.

(** ** The pages *)

Lemma showPage_advance st ops ys :
  showPage (advance st ops ys) = (tt, shown st ops ys).
Proof. reflexivity. Qed.

Lemma page1_cover_run upper name field st :
  exists ops ys,
    page1_cover upper name field st = (tt, shown st ops ys)
    /\ descending ys /\ ys <> [].
Proof.
  do 2 eexists. split.
  - unfold page1_cover. draw_run. apply showPage_advance.
  - split; [|discriminate].
    cbn [descending]. repeat split; apply Qle_bool_imp_le; reflexivity.
Qed.

Lemma page6_cta_run field st :
  exists ops ys,
    page6_cta field st = (tt, shown st ops ys)
    /\ descending ys /\ ys <> [].
Proof.
  do 2 eexists. split.
  - unfold page6_cta. draw_run. apply showPage_advance.
  - split; [|discriminate].
    cbn [descending]. repeat split; apply Qle_bool_imp_le; reflexivity.
Qed.

Lemma top_ys_descending : descending top_ys.
Proof.
  cbn [descending top_ys]. repeat split; apply Qle_bool_imp_le; reflexivity.
Qed.

Lemma top_ys_last c : last top_ys c = cards_y.
Proof. reflexivity. Qed.

Lemma problem_card_height_nonneg problem : 0 <= problem_card_height problem.
Proof.
  unfold problem_card_height.
  pose proof (len_nonneg
    (simpleSplit (QUOTE :: problem ++ [QUOTE]) Courier 10 (CW - 30))). lra.
Qed.

Lemma page2_problem_run field problem st :
  let card_h := problem_card_height problem in
  exists ops ys,
    page2_problem field problem st
    = (tt, shown st ops (top_ys ++ (cards_y - (card_h + 14)) :: ys))
    /\ card_rects ops
       = (cards_y - card_h, card_h)
         :: truncate (cards_y - (card_h + 14)) 12 (List.map stat_height stats)
    /\ descending (top_ys ++ (cards_y - (card_h + 14)) :: ys)
    /\ Forall (fun s => In s [14; 10; 8; 24; 9; 16; 7]) (font_sizes ops).
Proof.
  intro card_h. unfold page2_problem.
  rewrite bind_run.
  destruct (page_top_run 2 (str "THE CHALLENGE") RED (str "Where You Are Now")
              (str "Based on your audit submission for " ++ field) st)
    as (o1 & E1 & C1 & F1).
  unfold top_ys in E1 |- *. rewrite E1. cbn [fst snd]. cbv zeta.
  fold (problem_card_height problem). fold card_h.
  draw_run.
  rewrite bind_run.
  match goal with
  | |- context [stats_loop stats ?s] =>
      destruct (stats_loop_run stats s) as (o2 & ys & E2 & C2 & D2 & F2)
  end.
  rewrite E2. cbn [fst snd].
  rewrite advance_advance, showPage_advance.
  rewrite cursor_advance in C2, D2. cbn [last] in C2, D2.
  rewrite <- ?app_assoc. cbn [app].
  do 2 eexists. split; [reflexivity|].
  split; [|split].
  - ops_norm. rewrite C1, C2. reflexivity.
  - pose proof (problem_card_height_nonneg problem) as Hh. fold card_h in Hh.
    apply (descending_app header_y
             [header_y - 46; header_y - 46 - 22; cards_y] (_ :: ys)).
    + cbn [descending]. repeat split; apply Qle_bool_imp_le; reflexivity.
    + cbn [last]. split; [lra | exact D2].
  - ops_norm. rewrite F1. cbn [app].
    repeat (apply Forall_cons; [cbn [In]; tauto|]).
    revert F2. apply Forall_impl. intro s. cbn [In]. tauto.
Qed.

Lemma top_then_loop_descending ys :
  descending (cards_y :: ys) -> descending (top_ys ++ ys).
Proof.
  intro D.
  apply (descending_app header_y
           [header_y - 46; header_y - 46 - 22; cards_y] ys).
  - cbn [descending]. repeat split; apply Qle_bool_imp_le; reflexivity.
  - exact D.
Qed.

Ltac page_with_loop top_args loop_lemma :=
  rewrite bind_run;
  let o1 := fresh "o1" in
  let E1 := fresh "E1" in
  let C1 := fresh "C1" in
  let F1 := fresh "F1" in
  destruct top_args as (o1 & E1 & C1 & F1);
  rewrite E1; cbn [fst snd];
  rewrite bind_run;
  match goal with
  | |- context [?loop ?cards (advance ?s ?o ?y)] =>
      let o2 := fresh "o2" in
      let ys := fresh "ys" in
      let E2 := fresh "E2" in
      let C2 := fresh "C2" in
      let D2 := fresh "D2" in
      let F2 := fresh "F2" in
      destruct (loop_lemma cards (advance s o y))
        as (o2 & ys & E2 & C2 & D2 & F2);
      rewrite E2; cbn [fst snd];
      rewrite advance_advance, showPage_advance;
      rewrite cursor_advance in C2, D2;
      rewrite top_ys_last in C2, D2;
      exists (o1 ++ o2), ys;
      split; [reflexivity|];
      split; [rewrite card_rects_app, C1, C2; reflexivity|];
      split; [exact (top_then_loop_descending _ D2)|];
      rewrite font_sizes_app, F1; apply Forall_app; split;
      [ fonts_ok
      | revert F2; apply Forall_impl; intro; cbn [In]; tauto ]
  end.

Lemma page3_opportunities_run field st :
  exists ops ys,
    page3_opportunities field st = (tt, shown st ops (top_ys ++ ys))
    /\ card_rects ops
       = truncate cards_y 10
           (List.map opportunity_height (opportunities field))
    /\ descending (top_ys ++ ys)
    /\ Forall (fun s => In s [14; 10; 8; 24]) (font_sizes ops).
Proof.
  unfold page3_opportunities.
  page_with_loop
    (page_top_run 3 (str "OPPORTUNITIES") GREEN (str "What You're Missing")
       (str "AI & automation opportunities tailored to your business") st)
    opportunities_loop_run.
Qed.

Lemma page4_roadmap_run name field st :
  exists ops ys,
    page4_roadmap name field st = (tt, shown st ops (top_ys ++ ys))
    /\ card_rects ops = truncate cards_y 10 (List.map phase_height phases)
    /\ descending (top_ys ++ ys)
    /\ Forall (fun s => In s [14; 10; 8; 24; 11]) (font_sizes ops).
Proof.
  unfold page4_roadmap.
  page_with_loop
    (page_top_run 4 (str "YOUR ROADMAP") CYAN (str "The Plan")
       (str "A phased approach for " ++ name ++ str "'s " ++ field
          ++ str " business") st)
    phases_loop_run.
Qed.

Lemma page5_why_us_run st :
  exists ops ys,
    page5_why_us st = (tt, shown st ops (top_ys ++ ys))
    /\ card_rects ops = truncate cards_y 10 (List.map reason_height reasons)
    /\ descending (top_ys ++ ys)
    /\ Forall (fun s => In s [14; 10; 8; 24; 9]) (font_sizes ops).
Proof.
  unfold page5_why_us.
  page_with_loop
    (page_top_run 5 (str "WHY US") PURPLE (str "Built Different")
       (str "What makes Blok Blok Studio different") st)
    reasons_loop_run.
Qed.

(** The whole run: six pages, what is drawn on each and how the cursor
    moved. *)
Lemma generate_pdf_run upper name email field website problem output :
  let card_h := problem_card_height problem in
  let final := generate_pdf upper name email field website problem output in
  exists o1 y1 o2 y2 o3 y3 o4 y4 o5 y5 o6 y6,
    document final
    = List.map (fun o => {| page_size := letter; page_ops := o |})
        [o1; o2; o3; o4; o5; o6]
    /\ closed final
       = [y1; top_ys ++ (cards_y - (card_h + 14)) :: y2;
          top_ys ++ y3; top_ys ++ y4; top_ys ++ y5; y6]
    /\ (descending y1 /\ y1 <> [])
    /\ (card_rects o2
        = (cards_y - card_h, card_h)
          :: truncate (cards_y - (card_h + 14)) 12
               (List.map stat_height stats)
        /\ descending (top_ys ++ (cards_y - (card_h + 14)) :: y2)
        /\ Forall (fun s => In s [14; 10; 8; 24; 9; 16; 7]) (font_sizes o2))
    /\ (card_rects o3
        = truncate cards_y 10
            (List.map opportunity_height (opportunities field))
        /\ descending (top_ys ++ y3)
        /\ Forall (fun s => In s [14; 10; 8; 24]) (font_sizes o3))
    /\ (card_rects o4 = truncate cards_y 10 (List.map phase_height phases)
        /\ descending (top_ys ++ y4)
        /\ Forall (fun s => In s [14; 10; 8; 24; 11]) (font_sizes o4))
    /\ (card_rects o5 = truncate cards_y 10 (List.map reason_height reasons)
        /\ descending (top_ys ++ y5)
        /\ Forall (fun s => In s [14; 10; 8; 24; 9]) (font_sizes o5))
    /\ (descending y6 /\ y6 <> []).
Proof.
  intros card_h final. subst final. unfold generate_pdf.
  rewrite bind_run.
  destruct (page1_cover_run upper name field (new_canvas output))
    as (o1 & y1 & E1 & P1).
  rewrite E1. cbn [fst snd]. rewrite bind_run.
  match goal with |- context [page2_problem field problem ?s] =>
    destruct (page2_problem_run field problem s) as (o2 & y2 & E2 & P2) end.
  rewrite E2. cbn [fst snd]. rewrite bind_run.
  match goal with |- context [page3_opportunities field ?s] =>
    destruct (page3_opportunities_run field s) as (o3 & y3 & E3 & P3) end.
  rewrite E3. cbn [fst snd]. rewrite bind_run.
  match goal with |- context [page4_roadmap name field ?s] =>
    destruct (page4_roadmap_run name field s) as (o4 & y4 & E4 & P4) end.
  rewrite E4. cbn [fst snd]. rewrite bind_run.
  match goal with |- context [page5_why_us ?s] =>
    destruct (page5_why_us_run s) as (o5 & y5 & E5 & P5) end.
  rewrite E5. cbn [fst snd]. rewrite bind_run.
  match goal with |- context [page6_cta field ?s] =>
    destruct (page6_cta_run field s) as (o6 & y6 & E6 & P6) end.
  rewrite E6. cbn [fst snd].
  exists o1, y1, o2, y2, o3, y3, o4, y4, o5, y5, o6, y6.
  repeat split; try apply P1; try apply P2; try apply P3; try apply P4;
    try apply P5; try apply P6.
Qed.

(** ** Word wrap *)

Lemma split_from_words (s : text) :
  forall cur, Forall (fun c => isspace c = false) cur ->
    Forall word (split_from cur s).
Proof.
  induction s as [|c s IH]; intros cur Hcur; cbn [split_from].
  - destruct cur; constructor; [|constructor].
    split; [discriminate|exact Hcur].
  - destruct (isspace c) eqn:Ec.
    + destruct cur as [|a cur].
      * apply IH. constructor.
      * constructor; [split; [discriminate|exact Hcur]|].
        apply IH. constructor.
    + apply IH. apply Forall_app. split; [exact Hcur|].
      constructor; [exact Ec|constructor].
Qed.

Lemma split_words (s : text) : Forall word (split s).
Proof. apply split_from_words. constructor. Qed.

Lemma split_from_app_word (w : text) :
  Forall (fun c => isspace c = false) w ->
  forall cur s, split_from cur (w ++ s) = split_from (cur ++ w) s.
Proof.
  induction 1 as [|c w Hc Hw IH]; intros cur s.
  - rewrite app_nil_r. reflexivity.
  - cbn [app split_from]. rewrite Hc, IH, <- app_assoc. reflexivity.
Qed.

Lemma split_join (O : list text) :
  Forall word O -> split (join SPACE O) = O.
Proof.
  unfold split. induction 1 as [|p rest [Hne Hp] Hrest IH]; [reflexivity|].
  destruct rest as [|q rest].
  - cbn [join]. rewrite <- (app_nil_r p) at 1.
    rewrite (split_from_app_word p Hp). cbn [app split_from].
    destruct p; [contradiction|reflexivity].
  - change (join SPACE (p :: q :: rest))
      with (p ++ SPACE :: join SPACE (q :: rest)).
    rewrite (split_from_app_word p Hp). cbn [app split_from].
    change (isspace SPACE) with true. cbv iota.
    rewrite IH. destruct p; [contradiction|reflexivity].
Qed.

Lemma join_no_newline (O : list text) :
  Forall word O -> ~ In NEWLINE (join SPACE O).
Proof.
  induction 1 as [|p rest [Hne Hp] Hrest IH]; [intros []|].
  assert (Hnp : ~ In NEWLINE p).
  { intro Hin. rewrite Forall_forall in Hp. specialize (Hp _ Hin).
    discriminate Hp. }
  destruct rest as [|q rest]; [exact Hnp|].
  change (join SPACE (p :: q :: rest))
    with (p ++ SPACE :: join SPACE (q :: rest)).
  intro Hin. apply in_app_or in Hin. destruct Hin as [Hin|[Hin|Hin]].
  - exact (Hnp Hin).
  - discriminate Hin.
  - exact (IH Hin).
Qed.

Lemma split_on_from_no_sep (sep : char) (s : text) :
  ~ In sep s -> forall cur, split_on_from sep cur s = [cur ++ s].
Proof.
  induction s as [|c s IH]; intros Hs cur; cbn [split_on_from].
  - rewrite app_nil_r. reflexivity.
  - destruct (N.eqb_spec c sep) as [->|Hne].
    + exfalso. apply Hs. left. reflexivity.
    + rewrite IH, <- app_assoc; [reflexivity|].
      intro Hin. apply Hs. right. exact Hin.
Qed.

Lemma split_on_from_pieces (sep : char) (s : text) :
  forall cur, ~ In sep cur ->
    Forall (fun p => ~ In sep p) (split_on_from sep cur s).
Proof.
  induction s as [|c s IH]; intros cur Hcur; cbn [split_on_from].
  - constructor; [exact Hcur|constructor].
  - destruct (N.eqb_spec c sep) as [->|Hne].
    + constructor; [exact Hcur|]. apply IH. intros [].
    + apply IH. intro Hin. apply in_app_or in Hin.
      destruct Hin as [Hin|[Hin|[]]]; [exact (Hcur Hin)|].
      apply Hne. exact Hin.
Qed.

Lemma flat_map_singletons {A} (f : A -> list A) (l : list A) :
  Forall (fun x => f x = [x]) l -> flat_map f l = l.
Proof.
  induction 1 as [|x l Hx Hl IH]; [reflexivity|].
  cbn [flat_map]. rewrite Hx, IH. reflexivity.
Qed.

Section Wrap.

Variables mW ws : Q.
Variable SW : text -> Q.

Let loop := _simpleSplit_loop mW ws SW.

Lemma loop_app (a b : list text) :
  forall L O w,
    loop (a ++ b) L O w
    = let r := loop a L O w in loop b (fst (fst r)) (snd (fst r)) (snd r).
Proof.
  induction a as [|t a IH]; intros L O w; [reflexivity|].
  cbn [app]. unfold loop in *. cbn [_simpleSplit_loop].
  destruct (Qle_bool (w + ws + SW t) mW || is_nil O); apply IH.
Qed.

Lemma linew_snoc O t : linew ws SW (O ++ [t]) = linew ws SW O + ws + SW t.
Proof. unfold linew. rewrite fold_left_app. reflexivity. Qed.

Lemma one_line_snoc O t w :
  one_line mW ws SW O -> w == linew ws SW O ->
  Qle_bool (w + ws + SW t) mW || is_nil O = true ->
  one_line mW ws SW (O ++ [t]).
Proof.
  unfold one_line. fold loop. intros HO Hw Hfit.
  rewrite loop_app, HO. cbn [fst snd].
  unfold loop. cbn [_simpleSplit_loop].
  rewrite Hw in Hfit. rewrite Hfit, linew_snoc. reflexivity.
Qed.

Lemma one_line_single t : one_line mW ws SW [t].
Proof. unfold one_line, loop. cbn [_simpleSplit_loop is_nil].
  rewrite orb_true_r. reflexivity. Qed.

Lemma one_line_nil : one_line mW ws SW [].
Proof. reflexivity. Qed.

Lemma loop_lines (ts : list text) :
  Forall word ts ->
  forall L O w,
    Forall (line_ok mW ws SW) L -> Forall word O -> one_line mW ws SW O -> w == linew ws SW O ->
    let r := loop ts L O w in
    Forall (line_ok mW ws SW) (fst (fst r))
    /\ Forall word (snd (fst r))
    /\ one_line mW ws SW (snd (fst r)).
Proof.
  induction 1 as [|t ts Ht Hts IH]; intros L O w HL HO H1 Hw.
  - cbn. auto.
  - unfold loop in *. cbn [_simpleSplit_loop].
    destruct (Qle_bool (w + ws + SW t) mW || is_nil O) eqn:Hfit.
    + apply IH.
      * exact HL.
      * apply Forall_app. split; [exact HO|]. constructor; [exact Ht|constructor].
      * exact (one_line_snoc O t w H1 Hw Hfit).
      * rewrite linew_snoc, Hw. reflexivity.
    + apply orb_false_elim in Hfit. destruct Hfit as [_ Hnil].
      apply IH.
      * apply Forall_app. split; [exact HL|].
        constructor; [|constructor].
        exists O. repeat split; try assumption.
        destruct O; [discriminate Hnil|discriminate].
      * constructor; [exact Ht|constructor].
      * apply one_line_single.
      * unfold linew. cbn [fold_left]. ring.
Qed.

Lemma _simpleSplit_lines (txt : text) :
  ws = SW [SPACE] -> Forall (line_ok mW ws SW) (_simpleSplit txt mW SW).
Proof.
  intro Ews. unfold _simpleSplit. rewrite <- Ews.
  pose proof (loop_lines (split txt) (split_words txt) [] [] (- ws)
                (Forall_nil _) (Forall_nil _) one_line_nil (Qeq_refl _))
    as (HL & HO & H1).
  fold loop. cbv zeta.
  destruct (snd (fst (loop (split txt) [] [] (- ws)))) as [|t O] eqn:EO.
  - exact HL.
  - cbn [is_nil]. apply Forall_app. split; [exact HL|].
    constructor; [|constructor].
    exists (t :: O). repeat split; try assumption. discriminate.
Qed.

Lemma _simpleSplit_line_ok (l : text) :
  ws = SW [SPACE] -> line_ok mW ws SW l -> _simpleSplit l mW SW = [l].
Proof.
  intros Ews (O & Hne & HO & -> & H1).
  unfold _simpleSplit. rewrite <- Ews, (split_join O HO).
  unfold one_line in H1. rewrite H1. cbn [fst snd].
  destruct O; [contradiction|reflexivity].
Qed.

End Wrap.

Lemma simpleSplit_line_again (t : text) (font : Font) (size mW : Q) (l : text) :
  In l (simpleSplit t font size mW) -> simpleSplit l font size mW = [l].
Proof.
  unfold simpleSplit. destruct (Qeq_bool mW 0) eqn:E0; intro Hin.
  - pose proof (split_on_from_pieces NEWLINE t [] (fun f => f)) as Hp.
    rewrite Forall_forall in Hp. specialize (Hp l Hin).
    unfold split_on. rewrite (split_on_from_no_sep NEWLINE l Hp). reflexivity.
  - apply in_flat_map in Hin. destruct Hin as (p & _ & Hl).
    set (SW := fun s => stringWidth s font size) in *.
    pose proof (_simpleSplit_lines mW (SW [SPACE]) SW p eq_refl) as Hok.
    rewrite Forall_forall in Hok. specialize (Hok l Hl).
    assert (Hnl : ~ In NEWLINE l).
    { destruct Hok as (O & _ & HO & -> & _). apply join_no_newline, HO. }
    unfold split_on. rewrite (split_on_from_no_sep NEWLINE l Hnl).
    cbn [app flat_map].
    rewrite (_simpleSplit_line_ok mW (SW [SPACE]) SW l eq_refl Hok).
    reflexivity.
Qed.

(** * Properties *)

(** ** Word wrap *)

(** C5: word-wrap idempotence.  For every text, font, font size and
    width budget, each line [simpleSplit] produces, fed back through
    [simpleSplit] with the same font, size and width, comes back
    unchanged as the only line; so wrapping the lines of a wrapped text
    again, one by one, gives the same sequence of lines. *)
Theorem simpleSplit_idempotent :
  forall (t : text) (font : Font) (size maxWidth : Q),
    Forall (fun l => simpleSplit l font size maxWidth = [l])
      (simpleSplit t font size maxWidth)
    /\ flat_map (fun l => simpleSplit l font size maxWidth)
         (simpleSplit t font size maxWidth)
       = simpleSplit t font size maxWidth.
Proof.
  intros t font size maxWidth.
  assert (H1 : Forall (fun l => simpleSplit l font size maxWidth = [l])
                 (simpleSplit t font size maxWidth)).
  { apply Forall_forall. intros l Hl.
    exact (simpleSplit_line_again t font size maxWidth l Hl). }
  split; [exact H1|].
  apply flat_map_singletons. exact H1.
Qed.

(** ** The document *)

(** C2: for every valid input (non-empty name, email, field and problem,
    any website) the document [generate_pdf] produces has exactly six
    pages, each of the US-Letter size 612 x 792 points. *)
Theorem generate_pdf_six_letter_pages :
  forall upper (name : text) (email : value) (field : text) (website : value)
         (problem output : text),
    name <> [] -> truthy email = true -> field <> [] -> problem <> [] ->
    let doc :=
      document (generate_pdf upper name email field website problem output) in
    List.length doc = 6%nat
    /\ Forall (fun p => page_size p = (612, 792)) doc.
Proof.
  intros upper name email field website problem output _ _ _ _ doc.
  destruct (generate_pdf_run upper name email field website problem output)
    as (o1 & y1 & o2 & y2 & o3 & y3 & o4 & y4 & o5 & y5 & o6 & y6 & Hdoc & _).
  subst doc. rewrite Hdoc. split; [reflexivity|].
  repeat constructor.
Qed.

Lemma generate_pdf_six_letter_pages_witness :
  let doc := document (acme acme_problem) in
  List.length doc = 6%nat
  /\ Forall (fun p => page_size p = (612, 792)) doc.
Proof.
  unfold acme.
  apply (generate_pdf_six_letter_pages (fun t => t) (str "Acme Co")
           (VStr (str "a@x.com")) (str "Plumbing") (VStr (str "acme.com"))
           acme_problem (str "/tmp/audit.pdf"));
    [discriminate | reflexivity | discriminate | discriminate].
Defined.

(** C7: cursor monotonicity.  On each of the six pages the successive
    values of the cursor [y], from its first assignment on the page to
    [showPage], never increase. *)
Theorem cursor_never_increases :
  forall upper (name : text) (email : value) (field : text) (website : value)
         (problem output : text),
    let traces :=
      closed (generate_pdf upper name email field website problem output) in
    List.length traces = 6%nat
    /\ Forall descending traces
    /\ Forall (fun tr => tr <> []) traces.
Proof.
  intros upper name email field website problem output traces.
  destruct (generate_pdf_run upper name email field website problem output)
    as (o1 & y1 & o2 & y2 & o3 & y3 & o4 & y4 & o5 & y5 & o6 & y6
        & _ & Hcl & (D1 & N1) & (_ & D2 & _) & (_ & D3 & _) & (_ & D4 & _)
        & (_ & D5 & _) & (D6 & N6)).
  subst traces. rewrite Hcl. split; [reflexivity|]. split.
  - repeat (constructor; [assumption|]). constructor.
  - repeat (constructor; [first [assumption | discriminate]|]). constructor.
Qed.

(** ** Website noninterference *)

(** C9: [generate_pdf] does not read [website]: two calls that differ
    only in that argument end in the same state, so they draw the same
    pages, with the same drawing calls and texts, and move the cursor
    alike. *)
Theorem website_noninterference :
  forall upper name email field problem output (website1 website2 : value),
    generate_pdf upper name email field website1 problem output
    = generate_pdf upper name email field website2 problem output.
Proof.
  intros. unfold generate_pdf. reflexivity.
Qed.

(** ** Truncation of the card loops *)

Lemma truncate_cards_truncated (y gap : Q) (heights : list Q) :
  cards_truncated (truncate y gap heights) y gap heights.
Proof.
  split; [reflexivity|]. split.
  - apply truncate_floor.
  - apply truncate_heights.
Qed.


(** ** The truncation boundary on page 2 *)

Lemma stat_heights : Forall (fun c => stat_height c == 64) stats.
Proof.
  repeat constructor; apply Qeq_bool_eq; vm_compute; reflexivity.
Qed.

Lemma stats_truncate_nil (y : Q) :
  truncate y 12 (List.map stat_height stats) = [] <-> y < 124.
Proof.
  pose proof stat_heights as Hs. unfold stats in *.
  apply Forall_inv in Hs. cbn [List.map truncate].
  destruct (Qlt_le_dec _ 60) as [Hlt|Hge].
  - split; [intros _; lra | reflexivity].
  - split; [discriminate | intro; lra].
Qed.


Lemma problem_card_height_lines problem :
  problem_card_height problem = 40 + len (problem_lines problem) * 14.
Proof. reflexivity. Qed.

Lemma len_le {A} (l : list A) (n : nat) :
  (List.length l <= n)%nat -> len l <= inject_Z (Z.of_nat n).
Proof. intro H. unfold len. rewrite <- Zle_Qle. lia. Qed.

Lemma len_ge {A} (l : list A) (n : nat) :
  (n <= List.length l)%nat -> inject_Z (Z.of_nat n) <= len l.
Proof. intro H. unfold len. rewrite <- Zle_Qle. lia. Qed.

Lemma cards_y_value : cards_y == 15850 # 27.
Proof. apply Qeq_bool_eq. vm_compute. reflexivity. Qed.





(** ** The request handler *)

Lemma text_eqb_refl (a : text) : text_eqb a a = true.
Proof. unfold text_eqb. destruct (list_eq_dec N.eq_dec a a); congruence. Qed.

Lemma text_eqb_eq (a b : text) : text_eqb a b = true -> a = b.
Proof. unfold text_eqb. destruct (list_eq_dec N.eq_dec a b); congruence. Qed.

Lemma fs_lookup_remove_same (p : text) (files : list (text * bytes)) :
  fs_lookup p (fs_remove p files) = None.
Proof.
  induction files as [|[q b] rest IH]; [reflexivity|].
  cbn [fs_remove]. destruct (text_eqb p q) eqn:E; [exact IH|].
  cbn [fs_lookup]. rewrite E. exact IH.
Qed.

Lemma fs_lookup_remove_other (p q : text) (files : list (text * bytes)) :
  text_eqb p q = false ->
  fs_lookup p (fs_remove q files) = fs_lookup p files.
Proof.
  intro Hpq. induction files as [|[r b] rest IH]; [reflexivity|].
  cbn [fs_remove fs_lookup].
  destruct (text_eqb q r) eqn:Eqr.
  - apply text_eqb_eq in Eqr. subst r. rewrite Hpq. exact IH.
  - cbn [fs_lookup]. rewrite IH. reflexivity.
Qed.

Lemma keeps_ret {A} p (a : A) : keeps p (io_ret a).
Proof. intros w H. exact H. Qed.

Lemma keeps_raise {A} p e : keeps p (@raise A e).
Proof. intros w H. exact H. Qed.

Lemma keeps_bind {A B} p (m : IO A) (k : A -> IO B) :
  keeps p m -> (forall a, keeps p (k a)) -> keeps p (io_bind m k).
Proof.
  intros Hm Hk w Hw. unfold io_bind. specialize (Hm w Hw).
  destruct (m w) as [[e|a] w']; [exact Hm|]. apply Hk. exact Hm.
Qed.

Lemma keeps_log p e : keeps p (log e).
Proof. intros w H. exact H. Qed.

Lemma keeps_guard p env s : keeps p (guard env s).
Proof. intros w H. unfold guard. destruct (raises env s); exact H. Qed.

Lemma keeps_fs_write p q b : keeps p (fs_write q b).
Proof.
  intros w H. cbn [fs_write snd fs fs_lookup].
  destruct (text_eqb p q) eqn:E; [discriminate|].
  rewrite (fs_lookup_remove_other p q _ E). exact H.
Qed.

Lemma logs_ret {A} P (a : A) : logs P (io_ret a).
Proof. intro w. exists []. rewrite app_nil_r. split; reflexivity. Qed.

Lemma logs_raise {A} P e : logs P (@raise A e).
Proof. intro w. exists []. rewrite app_nil_r. split; reflexivity. Qed.

Lemma logs_bind {A B} P (m : IO A) (k : A -> IO B) :
  logs P m -> (forall a, logs P (k a)) -> logs P (io_bind m k).
Proof.
  intros Hm Hk w. unfold io_bind. destruct (Hm w) as (e1 & E1 & N1).
  destruct (m w) as [[e|a] w']; cbn [snd] in *.
  - exists e1. split; assumption.
  - destruct (Hk a w') as (e2 & E2 & N2). exists (e1 ++ e2).
    rewrite E2, E1, app_assoc, forallb_app, N1, N2. split; reflexivity.
Qed.

Lemma logs_log P e : P e = true -> logs P (log e).
Proof. intros He w. exists [e]. cbn. rewrite He. split; reflexivity. Qed.

Lemma logs_guard P env s : logs P (guard env s).
Proof.
  intro w. exists []. rewrite app_nil_r. unfold guard.
  destruct (raises env s); split; reflexivity.
Qed.

Lemma logs_fs_write P q b : logs P (fs_write q b).
Proof. intro w. exists []. rewrite app_nil_r. split; reflexivity. Qed.

Lemma logs_try_finally {A} P (body : IO A) (fin : IO unit) :
  logs P body -> logs P fin -> logs P (try_finally body fin).
Proof.
  intros Hb Hf w. unfold try_finally.
  destruct (Hb w) as (e1 & E1 & N1). destruct (body w) as [rb w1].
  destruct (Hf w1) as (e2 & E2 & N2). destruct (fin w1) as [[e|u] w2];
    cbn [snd] in *; exists (e1 ++ e2);
    rewrite E2, E1, app_assoc, forallb_app, N1, N2; split; reflexivity.
Qed.

Create HintDb handler.

#[local] Hint Resolve keeps_ret keeps_raise keeps_log keeps_guard
  keeps_fs_write logs_ret logs_raise logs_guard logs_fs_write : handler.

Ltac handler_steps :=
  repeat first
    [ apply keeps_bind; [|intro]
    | apply logs_bind; [|intro]
    | apply logs_log; first [assumption | reflexivity]
    | solve [auto with handler] ].

(** Stepping through handler code. *)

Lemma io_bind_assoc {A B C} (m : IO A) (k1 : A -> IO B) (k2 : B -> IO C) w :
  io_bind (io_bind m k1) k2 w = io_bind m (fun a => io_bind (k1 a) k2) w.
Proof. unfold io_bind. destruct (m w) as [[e|a] w']; reflexivity. Qed.

Lemma io_bind_ret {A B} (a : A) (k : A -> IO B) w :
  io_bind (io_ret a) k w = k a w.
Proof. reflexivity. Qed.

Lemma io_bind_raise {A B} e (k : A -> IO B) w :
  io_bind (raise e) k w = (inl e, w).
Proof. reflexivity. Qed.

Lemma io_bind_log {B} e (k : unit -> IO B) w :
  io_bind (log e) k w = k tt {| fs := fs w; events := events w ++ [e] |}.
Proof. reflexivity. Qed.

Lemma io_bind_guard {B} env s (k : unit -> IO B) w :
  io_bind (guard env s) k w
  = if raises env s then (inl OSError, w) else k tt w.
Proof. unfold io_bind, guard. destruct (raises env s); reflexivity. Qed.

Lemma guard_run env s w :
  guard env s w = if raises env s then (inl OSError, w) else (inr tt, w).
Proof. unfold guard. destruct (raises env s); reflexivity. Qed.

Lemma io_bind_fs_write {B} p b (k : unit -> IO B) w :
  io_bind (fs_write p b) k w
  = k tt {| fs := (p, b) :: fs_remove p (fs w); events := events w |}.
Proof. reflexivity. Qed.

Ltac io_step :=
  first
    [ rewrite io_bind_assoc
    | rewrite io_bind_ret
    | rewrite io_bind_raise
    | rewrite io_bind_log
    | rewrite io_bind_guard
    | rewrite io_bind_fs_write
    | rewrite guard_run ];
  cbv beta; cbn [fs events]; rewrite <- ?app_assoc; cbn [app].

Section HandlerFacts.

Variable upper : text -> text.
Variable py_str : value -> text.
Variable pdf_bytes : Document -> bytes.
Variable b64encode : bytes -> text.
Variable env : Env.

Lemma keeps_sends p status body :
  keeps p (io_bind (send_response env status) (fun _ =>
           io_bind (send_header env (str "Content-Type")
                      (str "application/json")) (fun _ =>
           io_bind (end_headers env) (fun _ => wfile_write env body)))).
Proof.
  unfold send_response, send_header, end_headers, wfile_write. handler_steps.
Qed.

Lemma logs_sends P status body :
  P (SendResponse status) = true ->
  P (SendHeader (str "Content-Type") (str "application/json")) = true ->
  P EndHeaders = true -> P (WfileWrite body) = true ->
  logs P (io_bind (send_response env status) (fun _ =>
          io_bind (send_header env (str "Content-Type")
                     (str "application/json")) (fun _ =>
          io_bind (end_headers env) (fun _ => wfile_write env body)))).
Proof.
  intros H1 H2 H3 H4. unfold send_response, send_header, end_headers, wfile_write. handler_steps.
Qed.

Lemma keeps_call_generate_pdf p name email field website problem output :
  keeps p (call_generate_pdf upper py_str pdf_bytes env name email field
             website problem output).
Proof.
  unfold call_generate_pdf. apply keeps_bind; [apply keeps_log|intros _].
  destruct name; try apply keeps_raise.
  destruct field; try apply keeps_raise. handler_steps.
Qed.

Lemma logs_call_generate_pdf P name email field website problem output :
  P (GeneratePdf name email field website problem output) = true ->
  logs P (call_generate_pdf upper py_str pdf_bytes env name email field
            website problem output).
Proof.
  intro HP.
  unfold call_generate_pdf. apply logs_bind; [apply logs_log; exact HP|].
  intros _. destruct name; try apply logs_raise.
  destruct field; try apply logs_raise. handler_steps.
Qed.

Lemma keeps_read_file p path : keeps p (read_file env path).
Proof.
  unfold read_file. handler_steps.
  intros w H. destruct (fs_lookup path (fs w)); exact H.
Qed.

Lemma logs_read_file P path :
  P (OpenRead path) = true -> logs P (read_file env path).
Proof.
  intro HP. unfold read_file. handler_steps.
  intro w. exists []. rewrite app_nil_r.
  destruct (fs_lookup path (fs w)); split; reflexivity.
Qed.

End HandlerFacts.

Section HandlerRuns.

Variable upper : text -> text.
Variable py_str : value -> text.
Variable pdf_bytes : Document -> bytes.
Variable b64encode : bytes -> text.
Variable env : Env.

Local Abbreviation POST := (do_POST upper py_str pdf_bytes b64encode env).

Lemma do_POST_dict items w :
  POST (VDict items) w
  = let name := field_value items (str "name") in
    let email := field_value items (str "email") in
    let field := field_value items (str "field") in
    let website := field_value items (str "website") in
    let problem := field_value items (str "problem") in
    if negb (all [name; email; field; problem])
    then respond env 400 (json_dumps (str "error") (str "Missing required fields")) w
    else io_bind (named_temporary_file env) (fun tmp_path =>
           try_finally (try_block upper py_str pdf_bytes b64encode env name email field website problem tmp_path)
             (unlink tmp_path)) w.
Proof.
  cbv zeta. unfold do_POST, dict_get, field_value, respond, try_block.
  unfold io_bind at 1 2 3 4 5. unfold io_ret.
  destruct (negb _); reflexivity.
Qed.

Lemma do_POST_not_dict body w :
  (forall items, body <> VDict items) ->
  POST body w = (inl AttributeError, w).
Proof.
  intro H. destruct body; try reflexivity. exfalso. exact (H _ eq_refl).
Qed.

Lemma respond_run status body w :
  no_socket_fault env ->
  respond env status body w
  = (inr tt, {| fs := fs w; events := events w ++ response status body |}).
Proof.
  intros (H1 & H2 & H3 & H4).
  unfold respond, send_response, send_header, end_headers, wfile_write,
    response.
  repeat io_step. rewrite H1. repeat io_step. rewrite H2.
  repeat io_step. rewrite H3. repeat io_step. rewrite H4. reflexivity.
Qed.

Lemma keeps_respond p status body : keeps p (respond env status body).
Proof. apply keeps_sends. Qed.

Lemma keeps_try_block p name email field website problem tmp_path :
  keeps p (try_block upper py_str pdf_bytes b64encode env name email field website problem tmp_path).
Proof.
  unfold try_block.
  apply keeps_bind; [apply keeps_call_generate_pdf|intros _].
  apply keeps_bind; [apply keeps_read_file|intro pdf].
  apply keeps_respond.
Qed.

Lemma logs_try_block P name email field website problem tmp_path :
  (forall e, is_named_temporary_file e = false ->
             e <> SendResponse 400 -> P e = true) ->
  logs P (try_block upper py_str pdf_bytes b64encode env name email field website problem tmp_path).
Proof.
  intro HP. unfold try_block.
  apply logs_bind; [|intros _].
  { apply logs_call_generate_pdf. apply HP; [reflexivity|discriminate]. }
  apply logs_bind; [|intro pdf].
  { apply logs_read_file. apply HP; [reflexivity|discriminate]. }
  apply logs_sends; apply HP; solve [reflexivity | discriminate].
Qed.

(** [finally: os.unlink(p)] after a block that leaves the file in place:
    the file is gone, the last call is the unlink, and the outcome of the
    block is kept. *)
Lemma try_finally_unlink {A} (body : IO A) p w :
  keeps p body -> fs_lookup p (fs w) <> None ->
  let r := try_finally body (unlink p) w in
  fs_lookup p (fs (snd r)) = None
  /\ events (snd r) = events (snd (body w)) ++ [Unlink p]
  /\ fst r = fst (body w).
Proof.
  intros Hk Hw. specialize (Hk w Hw). unfold try_finally.
  destruct (body w) as [rb w1]. cbn [snd fst] in *.
  unfold unlink. rewrite io_bind_log. cbn [fs events].
  destruct (fs_lookup p (fs w1)) eqn:E; [|contradiction].
  cbn [fst snd fs events]. rewrite fs_lookup_remove_same. auto.
Qed.

(** The branch of the handler that creates the temporary file. *)
Lemma created_then_removed P name email field website problem w :
  (forall e, is_named_temporary_file e = false ->
             e <> SendResponse 400 -> P e = true) ->
  let tmp := tmp_name env in
  let r := io_bind (named_temporary_file env) (fun tmp_path =>
             try_finally (try_block upper py_str pdf_bytes b64encode env name email field website problem tmp_path)
               (unlink tmp_path)) w in
  fs_lookup tmp (fs (snd r)) = None
  /\ exists evs,
       events (snd r)
       = events w ++ NamedTemporaryFile tmp :: evs ++ [Unlink tmp]
       /\ forallb P evs = true.
Proof.
  intros HP tmp r. subst r. unfold named_temporary_file.
  repeat io_step. fold tmp.
  match goal with |- context [try_finally ?b ?f ?w1] =>
    pose proof (try_finally_unlink b tmp w1
                  (keeps_try_block tmp name email field website problem tmp))
      as Hfin;
    destruct (logs_try_block P name email field website problem tmp HP w1)
      as (evs & Hev & HPev)
  end.
  cbn [fs events fs_lookup] in Hfin, Hev. rewrite text_eqb_refl in Hfin.
  destruct (Hfin ltac:(discriminate)) as (Hgone & Hlast & _).
  split; [exact Hgone|]. exists evs. split; [|exact HPev].
  rewrite Hlast, Hev, <- !app_assoc. reflexivity.
Qed.

Lemma missing_all_false items k :
  In k required -> truthy (field_value items k) = false ->
  all [field_value items (str "name"); field_value items (str "email");
       field_value items (str "field"); field_value items (str "problem")]
  = false.
Proof.
  intros Hk Hv. unfold required in Hk. cbn [In] in Hk. unfold all.
  cbn [forallb].
  destruct Hk as [<-|[<-|[<-|[<-|[]]]]]; rewrite Hv;
    rewrite ?andb_false_r; reflexivity.
Qed.

Lemma required_all_true items :
  (forall k, In k required -> truthy (field_value items k) = true) ->
  all [field_value items (str "name"); field_value items (str "email");
       field_value items (str "field"); field_value items (str "problem")]
  = true.
Proof.
  intro H. unfold all. cbn [forallb].
  rewrite !H; [reflexivity| | | |]; unfold required; cbn [In]; auto.
Qed.

(** The 400 branch, whatever the socket does: the generator is not
    called, no file is touched, only calls of the 400 answer are made. *)
Lemma respond_400_only w :
  let r := respond env 400 error_body w in
  fs (snd r) = fs w
  /\ exists evs rest,
       events (snd r) = events w ++ evs
       /\ response 400 error_body = evs ++ rest
       /\ (fst r = inr tt -> rest = []).
Proof.
  unfold respond, send_response, send_header, end_headers,
    wfile_write, response.
  repeat io_step. destruct (raises env site_send_response).
  { cbn. split; [reflexivity|]. do 2 eexists.
    split; [reflexivity | split; [reflexivity | discriminate]]. }
  repeat io_step. destruct (raises env site_send_header).
  { cbn. split; [reflexivity|]. do 2 eexists.
    split; [reflexivity | split; [reflexivity | discriminate]]. }
  repeat io_step. destruct (raises env site_end_headers).
  { cbn. split; [reflexivity|]. do 2 eexists.
    split; [reflexivity | split; [reflexivity | discriminate]]. }
  repeat io_step. destruct (raises env site_write).
  { cbn. split; [reflexivity|]. do 2 eexists.
    split; [reflexivity | split; [reflexivity | discriminate]]. }
  cbn. split; [reflexivity|]. exists (response 400 error_body), [].
  repeat split.
Qed.

End HandlerRuns.

Lemma existsb_prefix {A} (f : A -> bool) (a b : list A) :
  existsb f (a ++ b) = false -> existsb f a = false.
Proof.
  rewrite existsb_app. intro H. apply orb_false_elim in H. tauto.
Qed.

Lemma not_status_400_sound (l : list Event) :
  forallb not_status_400 l = true -> ~ In (SendResponse 400) l.
Proof.
  intros H Hin. rewrite forallb_forall in H. specialize (H _ Hin).
  discriminate H.
Qed.

Section HandlerOutcomes.

Variable upper : text -> text.
Variable py_str : value -> text.
Variable pdf_bytes : Document -> bytes.
Variable b64encode : bytes -> text.
Variable env : Env.

(** A required field that is not truthy ends the request with the 400
    answer; the generator is not called and no file is touched. *)
Lemma falsy_field_rejected items files k :
  In k required -> truthy (field_value items k) = false ->
  let r := do_POST upper py_str pdf_bytes b64encode env (VDict items)
             (world0 files) in
  existsb is_generate (events (snd r)) = false
  /\ existsb is_named_temporary_file (events (snd r)) = false
  /\ fs (snd r) = files
  /\ (exists rest, response 400 error_body = events (snd r) ++ rest)
  /\ (no_socket_fault env ->
      r = (inr tt, {| fs := files; events := response 400 error_body |})).
Proof.
  intros Hk Hv r. subst r. rewrite do_POST_dict. cbv zeta.
  rewrite (missing_all_false items k Hk Hv). cbn [negb].
  change (json_dumps (str "error") (str "Missing required fields"))
    with error_body.
  destruct (respond_400_only env (world0 files))
    as (Hfs & evs & rest & Hev & Hpre & _).
  cbn [world0 events fs app] in Hev, Hfs. rewrite Hev, Hfs.
  repeat split.
  - apply (existsb_prefix _ evs rest). rewrite <- Hpre. reflexivity.
  - apply (existsb_prefix _ evs rest). rewrite <- Hpre. reflexivity.
  - exists rest. exact Hpre.
  - intro Hok. rewrite (respond_run env 400 error_body _ Hok). reflexivity.
Qed.

(** With the four required fields truthy the handler creates the
    temporary file, runs the [try] block and unlinks the file. *)
Lemma accepted_run P items files :
  (forall k, In k required -> truthy (field_value items k) = true) ->
  (forall e, is_named_temporary_file e = false ->
             e <> SendResponse 400 -> P e = true) ->
  let r := do_POST upper py_str pdf_bytes b64encode env (VDict items)
             (world0 files) in
  fs_lookup (tmp_name env) (fs (snd r)) = None
  /\ exists evs,
       events (snd r)
       = NamedTemporaryFile (tmp_name env) :: evs ++ [Unlink (tmp_name env)]
       /\ forallb P evs = true.
Proof.
  intros Hall HP r. subst r. rewrite do_POST_dict. cbv zeta.
  rewrite (required_all_true items Hall). cbn [negb].
  apply (created_then_removed upper py_str pdf_bytes b64encode env P _ _ _ _ _
           (world0 files) HP).
Qed.

End HandlerOutcomes.

Section HandlerSuccess.

Variable upper : text -> text.
Variable py_str : value -> text.
Variable pdf_bytes : Document -> bytes.
Variable b64encode : bytes -> text.
Variable env : Env.

Lemma io_bind_run {A B} (m : IO A) (k : A -> IO B) w :
  io_bind m k w
  = match m w with
    | (inl e, w') => (inl e, w')
    | (inr a, w') => k a w'
    end.
Proof. reflexivity. Qed.

Lemma truthy_nonempty (t : text) : t <> [] -> truthy (VStr t) = true.
Proof. destruct t; [contradiction|reflexivity]. Qed.

(** The run on four non-empty strings when nothing outside the program
    fails: the document is generated, read back, sent base64-encoded
    with status 200, and the file is unlinked. *)
Lemma accepted_strings_run items files n e f p :
  dict_lookup (str "name") items = Some (VStr n) ->
  dict_lookup (str "email") items = Some (VStr e) ->
  dict_lookup (str "field") items = Some (VStr f) ->
  dict_lookup (str "problem") items = Some (VStr p) ->
  n <> [] -> e <> [] -> f <> [] -> p <> [] ->
  no_fault env ->
  let tmp := tmp_name env in
  let website := field_value items (str "website") in
  let doc := document (generate_pdf upper n (VStr e) f website p tmp) in
  let r := do_POST upper py_str pdf_bytes b64encode env (VDict items)
             (world0 files) in
  fst r = inr tt
  /\ events (snd r)
     = NamedTemporaryFile tmp
       :: GeneratePdf (VStr n) (VStr e) (VStr f) website (VStr p) tmp
       :: OpenRead tmp
       :: response 200 (json_dumps (str "pdf") (b64encode (pdf_bytes doc)))
       ++ [Unlink tmp].
Proof.
  intros Hn He Hf Hp Nn Ne Nf Np Hok tmp website doc r.
  assert (En : field_value items (str "name") = VStr n)
    by (unfold field_value; rewrite Hn; reflexivity).
  assert (Ee : field_value items (str "email") = VStr e)
    by (unfold field_value; rewrite He; reflexivity).
  assert (Ef : field_value items (str "field") = VStr f)
    by (unfold field_value; rewrite Hf; reflexivity).
  assert (Ep : field_value items (str "problem") = VStr p)
    by (unfold field_value; rewrite Hp; reflexivity).
  subst r. rewrite do_POST_dict. cbv zeta.
  rewrite En, Ee, Ef, Ep. unfold all. cbn [forallb].
  rewrite !truthy_nonempty by assumption. cbn [andb negb].
  fold website. unfold named_temporary_file. fold tmp.
  repeat io_step.
  unfold try_finally, try_block, call_generate_pdf.
  repeat io_step. rewrite !Hok. repeat io_step.
  unfold read_file. repeat io_step. rewrite !Hok.
  rewrite io_bind_run. cbn [fs events fs_lookup]. rewrite text_eqb_refl.
  assert (Hsock : no_socket_fault env) by (repeat split; apply Hok).
  rewrite (respond_run env 200 _ _ Hsock). cbn [fs events].
  unfold unlink. rewrite io_bind_log. cbn [fs events fs_lookup].
  rewrite text_eqb_refl. cbn [fst snd events].
  split; [reflexivity|].
  rewrite <- ?app_assoc. reflexivity.
Qed.

End HandlerSuccess.

(** ** Validation *)

Lemma missing_not_truthy items k :
  missing items k -> truthy (field_value items k) = false.
Proof. unfold missing, field_value. intros [-> | ->]; reflexivity. Qed.

(** C1: when the decoded body omits one of name, email, field, problem,
    or binds it to the empty string, the handler does not call the PDF
    generator and touches no file; the calls it makes are those of the
    400 answer with body [{"error": "Missing required fields"}], and
    unless the client socket fails that answer is sent whole and the
    handler returns.  When the four fields are truthy no 400 is sent,
    whatever [website] is bound to or whether it is there at all. *)
Theorem missing_field_400 :
  forall upper py_str pdf_bytes b64encode env items files,
    let r := do_POST upper py_str pdf_bytes b64encode env (VDict items)
               (world0 files) in
    ((exists k, In k required /\ missing items k) ->
     existsb is_generate (events (snd r)) = false
     /\ fs (snd r) = files
     /\ (exists rest, response 400 error_body = events (snd r) ++ rest)
     /\ (no_socket_fault env ->
         r = (inr tt, {| fs := files; events := response 400 error_body |})))
    /\ ((forall k, In k required -> truthy (field_value items k) = true) ->
        ~ In (SendResponse 400) (events (snd r))).
Proof.
  intros upper py_str pdf_bytes b64encode env items files r. split.
  - intros (k & Hk & Hm).
    destruct (falsy_field_rejected upper py_str pdf_bytes b64encode env
                items files k Hk (missing_not_truthy items k Hm))
      as (H1 & _ & H3 & H4 & H5).
    repeat split; assumption.
  - intro Hall.
    destruct (accepted_run upper py_str pdf_bytes b64encode env
                not_status_400 items files Hall) as (_ & evs & Hev & HP).
    { intros e _ He. destruct e; try reflexivity.
      cbn [not_status_400].
      destruct (Nat.eqb_spec status 400) as [->|Hne]; [contradiction|].
      reflexivity. }
    subst r. rewrite Hev. intros [Hin|Hin]; [discriminate Hin|].
    apply in_app_or in Hin. destruct Hin as [Hin|[Hin|[]]]; [|discriminate Hin].
    exact (not_status_400_sound evs HP Hin).
Qed.

(** ** Cleanup of the temporary file *)

(** C8: on every run of the handler that creates the temporary file,
    whether the [try] block ends normally or the generator, the read or
    the writing of the answer raises, the file is gone when the handler
    is left and its last call is [os.unlink] of that file. *)
Theorem temp_file_removed :
  forall upper py_str pdf_bytes b64encode env body files,
    let r := do_POST upper py_str pdf_bytes b64encode env body
               (world0 files) in
    existsb is_named_temporary_file (events (snd r)) = true ->
    fs_lookup (tmp_name env) (fs (snd r)) = None
    /\ exists evs, events (snd r) = evs ++ [Unlink (tmp_name env)].
Proof.
  intros upper py_str pdf_bytes b64encode env body files r Hcreated.
  destruct body as [| | | | | |items];
    try (subst r; discriminate Hcreated).
  destruct (all [field_value items (str "name");
                 field_value items (str "email");
                 field_value items (str "field");
                 field_value items (str "problem")]) eqn:Hall.
  - assert (Htrue : forall k, In k required ->
                      truthy (field_value items k) = true).
    { unfold all in Hall. cbn [forallb] in Hall.
      apply andb_prop in Hall. destruct Hall as [H1 Hall].
      apply andb_prop in Hall. destruct Hall as [H2 Hall].
      apply andb_prop in Hall. destruct Hall as [H3 Hall].
      apply andb_prop in Hall. destruct Hall as [H4 _].
      intros k [<-|[<-|[<-|[<-|[]]]]]; assumption. }
    destruct (accepted_run upper py_str pdf_bytes b64encode env
                (fun _ => true) items files Htrue (fun _ _ _ => eq_refl))
      as (Hgone & evs & Hev & _).
    split; [exact Hgone|].
    exists (NamedTemporaryFile (tmp_name env) :: evs).
    subst r. rewrite Hev. reflexivity.
  - exfalso. subst r. rewrite do_POST_dict in Hcreated. cbv zeta in Hcreated.
    rewrite Hall in Hcreated. cbn [negb] in Hcreated.
    change (json_dumps (str "error") (str "Missing required fields"))
      with error_body in Hcreated.
    destruct (respond_400_only env (world0 files))
      as (_ & evs & rest & Hev & Hpre & _).
    cbn [world0 events app] in Hev. rewrite Hev in Hcreated.
    assert (Hno : existsb is_named_temporary_file evs = false).
    { apply (existsb_prefix _ evs rest). rewrite <- Hpre. reflexivity. }
    rewrite Hno in Hcreated. discriminate Hcreated.
Qed.

Lemma missing_field_400_witness :
  (let r := ex_POST [] nameless_body in
   existsb is_generate (events (snd r)) = false
   /\ fs (snd r) = []
   /\ (exists rest, response 400 error_body = events (snd r) ++ rest)
   /\ (no_socket_fault (ex_env []) ->
       r = (inr tt, {| fs := []; events := response 400 error_body |})))
  /\ ~ In (SendResponse 400) (events (snd (ex_POST [] (acme_body [])))).
Proof.
  unfold ex_POST, nameless_body, acme_body. split.
  - apply (missing_field_400 (fun t => t) ex_py_str ex_pdf_bytes ex_b64encode
             (ex_env [])).
    exists (str "name"). split; [left; reflexivity|right; reflexivity].
  - apply (missing_field_400 (fun t => t) ex_py_str ex_pdf_bytes ex_b64encode
             (ex_env [])).
    intros k [<-|[<-|[<-|[<-|[]]]]]; reflexivity.
Defined.

Lemma temp_file_removed_witness :
  let r := ex_POST [site_generate] (acme_body []) in
  existsb is_named_temporary_file (events (snd r)) = true
  /\ fs_lookup (tmp_name (ex_env [site_generate])) (fs (snd r)) = None
  /\ exists evs,
       events (snd r) = evs ++ [Unlink (tmp_name (ex_env [site_generate]))].
Proof.
  unfold ex_POST, acme_body.
  assert (H : existsb is_named_temporary_file
                (events (snd (do_POST (fun t => t) ex_py_str ex_pdf_bytes
                                ex_b64encode (ex_env [site_generate])
                                (VDict
                                   ([(str "name", VStr (str "Acme Co"));
                                     (str "email", VStr (str "a@x.com"));
                                     (str "field", VStr (str "Plumbing"))]
                                    ++ []
                                    ++ [(str "problem", VStr acme_problem)]))
                                (world0 []))))
              = true) by (vm_compute; reflexivity).
  split; [exact H|].
  exact (temp_file_removed (fun t => t) ex_py_str ex_pdf_bytes ex_b64encode
           (ex_env [site_generate]) _ [] H).
Defined.

(** ** Truthiness of the required fields *)

(** C10: the presence check is Python truthiness.  A required field
    bound to 0, false, null, an empty array or an empty object is
    treated as missing: the generator is not called and the 400 answer
    is sent.  A string that is not empty passes the check even when it
    consists of whitespace only, such as a single space; with four such
    strings, and nothing failing outside the program, the handler
    answers 200 with the encoded document. *)
Theorem truthiness_validation :
  forall upper py_str pdf_bytes b64encode env items files,
    let r := do_POST upper py_str pdf_bytes b64encode env (VDict items)
               (world0 files) in
    (forall k v, In k required -> In v json_falsy ->
       dict_lookup k items = Some v ->
       existsb is_generate (events (snd r)) = false
       /\ (exists rest, response 400 error_body = events (snd r) ++ rest)
       /\ (no_socket_fault env ->
           r = (inr tt, {| fs := files; events := response 400 error_body |})))
    /\ (forall t, t <> [] -> Forall (fun c => isspace c = true) t ->
          truthy (VStr t) = true)
    /\ (forall n e f p,
          dict_lookup (str "name") items = Some (VStr n) ->
          dict_lookup (str "email") items = Some (VStr e) ->
          dict_lookup (str "field") items = Some (VStr f) ->
          dict_lookup (str "problem") items = Some (VStr p) ->
          n <> [] -> e <> [] -> f <> [] -> p <> [] ->
          no_fault env ->
          let tmp := tmp_name env in
          let website := field_value items (str "website") in
          let doc :=
            document (generate_pdf upper n (VStr e) f website p tmp) in
          fst r = inr tt
          /\ events (snd r)
             = NamedTemporaryFile tmp
               :: GeneratePdf (VStr n) (VStr e) (VStr f) website (VStr p) tmp
               :: OpenRead tmp
               :: response 200
                    (json_dumps (str "pdf") (b64encode (pdf_bytes doc)))
               ++ [Unlink tmp]).
Proof.
  intros upper py_str pdf_bytes b64encode env items files r.
  split; [|split].
  - intros k v Hk Hv Hb.
    assert (Hfalse : truthy (field_value items k) = false).
    { unfold field_value. rewrite Hb. unfold json_falsy in Hv. cbn [In] in Hv.
      destruct Hv as [<-|[<-|[<-|[<-|[<-|[]]]]]]; reflexivity. }
    destruct (falsy_field_rejected upper py_str pdf_bytes b64encode env
                items files k Hk Hfalse) as (H1 & _ & _ & H4 & H5).
    repeat split; assumption.
  - intros t Ht _. apply truthy_nonempty. exact Ht.
  - intros n e f p Hn He Hf Hp Nn Ne Nf Np Hok.
    exact (accepted_strings_run upper py_str pdf_bytes b64encode env items
             files n e f p Hn He Hf Hp Nn Ne Nf Np Hok).
Qed.

Lemma truthiness_validation_witness :
  (let r := ex_POST [] (VDict zero_name_items) in
   existsb is_generate (events (snd r)) = false
   /\ (exists rest, response 400 error_body = events (snd r) ++ rest)
   /\ (no_socket_fault (ex_env []) ->
       r = (inr tt, {| fs := []; events := response 400 error_body |})))
  /\ truthy (VStr [SPACE]) = true
  /\ (let r := ex_POST [] (VDict blank_name_items) in
      let tmp := tmp_name (ex_env []) in
      let doc :=
        document (generate_pdf (fun t => t) [SPACE] (VStr (str "a@x.com"))
                    (str "Plumbing")
                    (field_value blank_name_items (str "website"))
                    acme_problem tmp) in
      fst r = inr tt
      /\ events (snd r)
         = NamedTemporaryFile tmp
           :: GeneratePdf (VStr [SPACE]) (VStr (str "a@x.com"))
                (VStr (str "Plumbing"))
                (field_value blank_name_items (str "website"))
                (VStr acme_problem) tmp
           :: OpenRead tmp
           :: response 200
                (json_dumps (str "pdf") (ex_b64encode (ex_pdf_bytes doc)))
           ++ [Unlink tmp]).
Proof.
  unfold ex_POST.
  destruct (truthiness_validation (fun t => t) ex_py_str ex_pdf_bytes
              ex_b64encode (ex_env []) zero_name_items []) as (H1 & _ & _).
  destruct (truthiness_validation (fun t => t) ex_py_str ex_pdf_bytes
              ex_b64encode (ex_env []) blank_name_items []) as (_ & H2 & H3).
  split; [|split].
  - apply (H1 (str "name") (VInt 0)).
    + left. reflexivity.
    + left. reflexivity.
    + reflexivity.
  - apply H2; [discriminate|]. constructor; [reflexivity|constructor].
  - apply (H3 [SPACE] (str "a@x.com") (str "Plumbing") acme_problem);
      try reflexivity; try discriminate.
    intro s. destruct s; reflexivity.
Defined.

(** ** Line count under extension of the text *)

Lemma split_from_snoc (s : text) :
  forall cur, exists done lastw,
    split_from cur s = done ++ opt_word lastw
    /\ forall c, split_from cur (s ++ [c])
                 = if isspace c then done ++ opt_word lastw
                   else done ++ [lastw ++ [c]].
Proof.
  induction s as [|a s IH]; intro cur.
  - exists [], cur. split; [reflexivity|]. intro c. cbn [app split_from].
    destruct (isspace c).
    + destruct cur; reflexivity.
    + destruct cur; reflexivity.
  - cbn [app split_from]. destruct (isspace a).
    + destruct cur as [|x cur].
      * apply IH.
      * destruct (IH []) as (done & lastw & E & Hs).
        exists ((x :: cur) :: done), lastw. rewrite E.
        split; [reflexivity|]. intro c. rewrite Hs.
        destruct (isspace c); reflexivity.
    + apply IH.
Qed.

Lemma split_on_from_snoc (sep : char) (s : text) :
  forall cur, exists init lastp,
    split_on_from sep cur s = init ++ [lastp]
    /\ forall c, split_on_from sep cur (s ++ [c])
                 = if (c =? sep)%N then init ++ [lastp; []]
                   else init ++ [lastp ++ [c]].
Proof.
  induction s as [|a s IH]; intro cur.
  - exists [], cur. split; [reflexivity|]. intro c. cbn [app split_on_from].
    destruct (c =? sep)%N; reflexivity.
  - cbn [app split_on_from]. destruct (a =? sep)%N.
    + destruct (IH []) as (init & lastp & E & Hs).
      exists (cur :: init), lastp. rewrite E. split; [reflexivity|].
      intro c. rewrite Hs. destruct (c =? sep)%N; reflexivity.
    + apply IH.
Qed.

Section WrapCount.

Variables mW ws : Q.
Variable SW : text -> Q.
Hypothesis SW_snoc : forall t c, SW t <= SW (t ++ [c]).

Lemma loop_one_more (t : text) L O w :
  (nlines (L, O, w)
   <= nlines (_simpleSplit_loop mW ws SW [t] L O w))%nat.
Proof.
  cbn [_simpleSplit_loop].
  destruct (Qle_bool (w + ws + SW t) mW || is_nil O); unfold nlines;
    cbn [fst snd]; rewrite ?length_app; cbn [List.length].
  - destruct O; cbn [is_nil app]; lia.
  - destruct O; cbn [is_nil]; lia.
Qed.

Lemma loop_longer_word (t : text) (c : char) L O w :
  (nlines (_simpleSplit_loop mW ws SW [t] L O w)
   <= nlines (_simpleSplit_loop mW ws SW [t ++ [c]] L O w))%nat.
Proof.
  cbn [_simpleSplit_loop].
  destruct (Qle_bool (w + ws + SW (t ++ [c])) mW || is_nil O) eqn:E2.
  - assert (E1 : Qle_bool (w + ws + SW t) mW || is_nil O = true).
    { apply orb_true_iff in E2. apply orb_true_iff.
      destruct E2 as [E2|E2]; [left|right; exact E2].
      apply Qle_bool_iff in E2. apply Qle_bool_iff.
      pose proof (SW_snoc t c). lra. }
    rewrite E1. unfold nlines. cbn [fst snd].
    destruct O; cbn [is_nil app]; lia.
  - destruct (Qle_bool (w + ws + SW t) mW || is_nil O); unfold nlines;
      cbn [fst snd]; rewrite ?length_app; cbn [List.length is_nil].
    + destruct O; cbn [is_nil app]; lia.
    + lia.
Qed.

Lemma _simpleSplit_length (txt : text) :
  ws = SW [SPACE] ->
  List.length (_simpleSplit txt mW SW)
  = nlines (_simpleSplit_loop mW ws SW (split txt) [] [] (- ws)).
Proof.
  intros ->. unfold _simpleSplit, nlines. cbv zeta.
  destruct (snd (fst (_simpleSplit_loop mW (SW [SPACE]) SW (split txt) [] []
                        (- SW [SPACE])))); cbn [is_nil].
  - lia.
  - rewrite length_app. reflexivity.
Qed.

Lemma _simpleSplit_snoc (txt : text) (c : char) :
  ws = SW [SPACE] ->
  (List.length (_simpleSplit txt mW SW)
   <= List.length (_simpleSplit (txt ++ [c]) mW SW))%nat.
Proof.
  intro Ews. rewrite !(_simpleSplit_length _ Ews). unfold split.
  destruct (split_from_snoc txt []) as (done & lastw & E & Hs).
  rewrite Hs, E. destruct (isspace c); [lia|].
  rewrite !loop_app. cbv zeta.
  destruct (_simpleSplit_loop mW ws SW done [] [] (- ws)) as [[L O] w].
  cbn [fst snd]. destruct lastw as [|x lastw].
  - cbn [opt_word app]. apply loop_one_more.
  - cbn [opt_word]. apply loop_longer_word.
Qed.

End WrapCount.

Lemma stringWidth_snoc (font : Font) (size : Q) (t : text) (c : char) :
  0 <= size -> stringWidth t font size <= stringWidth (t ++ [c]) font size.
Proof.
  intro Hs. unfold stringWidth. rewrite length_app. cbn [List.length].
  assert (H1 : inject_Z (600 * Z.of_nat (List.length t))
               <= inject_Z (600 * Z.of_nat (List.length t + 1))).
  { rewrite <- Zle_Qle. lia. }
  apply Qmult_le_compat_r; [|exact Hs].
  apply Qmult_le_compat_r; [exact H1|]. discriminate.
Qed.

Lemma flat_map_length_app {A B} (f : A -> list B) (a b : list A) :
  List.length (flat_map f (a ++ b))
  = (List.length (flat_map f a) + List.length (flat_map f b))%nat.
Proof. rewrite flat_map_app, length_app. reflexivity. Qed.

Lemma simpleSplit_snoc (t : text) (c : char) (font : Font) (size mW : Q) :
  0 <= size ->
  (List.length (simpleSplit t font size mW)
   <= List.length (simpleSplit (t ++ [c]) font size mW))%nat.
Proof.
  intro Hs. unfold simpleSplit, split_on.
  destruct (split_on_from_snoc NEWLINE t []) as (init & lastp & E & Hsn).
  rewrite Hsn, E.
  destruct (Qeq_bool mW 0); destruct (c =? NEWLINE)%N;
    rewrite ?flat_map_length_app, ?length_app; cbn [List.length flat_map];
    rewrite ?app_nil_r; try lia.
  pose proof (_simpleSplit_snoc mW _ (fun s => stringWidth s font size)
                (fun t c => stringWidth_snoc font size t c Hs) lastp c eq_refl).
  lia.
Qed.

Lemma simpleSplit_prefix (t1 t2 : text) (font : Font) (size mW : Q) :
  0 <= size ->
  (List.length (simpleSplit t1 font size mW)
   <= List.length (simpleSplit (t1 ++ t2) font size mW))%nat.
Proof.
  intro Hs. induction t2 as [|c t2 IH] using rev_ind.
  - rewrite app_nil_r. lia.
  - rewrite app_assoc.
    pose proof (simpleSplit_snoc (t1 ++ t2) c font size mW Hs). lia.
Qed.

(** ** Card height and text length *)

Lemma card_height_prefix chrome line_h pad font size width (t1 t2 : text) :
  0 <= line_h -> 0 <= size ->
  card_height chrome line_h pad font size width t1
  <= card_height chrome line_h pad font size width (t1 ++ t2).
Proof.
  intros Hl Hs. unfold card_height.
  pose proof (simpleSplit_prefix t1 t2 font size width Hs) as Hn.
  assert (Hlen : len (simpleSplit t1 font size width)
                 <= len (simpleSplit (t1 ++ t2) font size width)).
  { unfold len. rewrite <- Zle_Qle. lia. }
  pose proof (Qmult_le_compat_r _ _ line_h Hlen Hl). lra.
Qed.

(** C6, as amended: for a fixed chrome, line height, padding, font, font
    size (not negative) and wrap width, the card height does not
    decrease when the text is extended: the height of a text is at most
    the height of any text it is a prefix of.  The heights the program
    computes are instances of the formula. *)
Theorem card_height_monotone_in_extension :
  forall chrome line_h pad font size width (t1 t2 : text),
    0 <= line_h -> 0 <= size ->
    card_height chrome line_h pad font size width t1
    <= card_height chrome line_h pad font size width (t1 ++ t2)
    /\ (forall val desc source color,
          stat_height (val, desc, source, color)
          = card_height 38 12 14 Courier 9 (CW - 30) desc)
    /\ (forall title desc color,
          opportunity_height (title, desc, color)
          = card_height 34 11 10 Courier 8 (CW - 30) desc)
    /\ (forall tag title desc color,
          phase_height (tag, title, desc, color)
          = card_height (18 + 22 + 14) 11 18 Courier 8 (CW - 30) desc)
    /\ (forall title desc color,
          reason_height (title, desc, color)
          = card_height 30 11 10 Courier 8 (CW - 30) desc)
    /\ (forall problem,
          problem_card_height problem
          == card_height 40 14 0 Courier 10 (CW - 30)
               (QUOTE :: problem ++ [QUOTE])).
Proof.
  intros chrome line_h pad font size width t1 t2 Hl Hs.
  split; [exact (card_height_prefix _ _ _ _ _ _ t1 t2 Hl Hs)|].
  repeat split; try reflexivity.
  intro problem. unfold problem_card_height, card_height. ring.
Qed.

Lemma card_height_monotone_in_extension_witness :
  card_height 38 12 14 Courier 9 (CW - 30) (str "We lose leads")
  <= card_height 38 12 14 Courier 9 (CW - 30)
       (str "We lose leads" ++ str " because no one answers the phone").
Proof.
  apply (card_height_monotone_in_extension 38 12 14 Courier 9 (CW - 30)
           (str "We lose leads") (str " because no one answers the phone"));
    discriminate.
Defined.

(** C6, as claimed, fails: a text of 101 characters in two words wraps
    to two lines, a single word of 102 characters stays on one line, so
    the longer text gets the lower card. *)
Lemma card_height_length_counterexample :
  (List.length two_words <= List.length one_long_word)%nat
  /\ ~ (card_height 38 12 14 Courier 9 (CW - 30) two_words
        <= card_height 38 12 14 Courier 9 (CW - 30) one_long_word).
Proof.
  split.
  - vm_compute. repeat constructor.
  - apply Qlt_not_le. vm_compute. reflexivity.
Qed.

(** * Further properties of the handler *)

Section HandlerEdges.

Variable upper : text -> text.
Variable py_str : value -> text.
Variable pdf_bytes : Document -> bytes.
Variable b64encode : bytes -> text.
Variable env : Env.

(** A run of the accepted branch in which the call of the generator
    raises: nothing is read or sent, the file is unlinked, and the
    exception leaves the handler. *)
Lemma generator_raises_run items files e :
  (forall k, In k required -> truthy (field_value items k) = true) ->
  (forall w,
     let tmp := tmp_name env in
     call_generate_pdf upper py_str pdf_bytes env
       (field_value items (str "name")) (field_value items (str "email"))
       (field_value items (str "field")) (field_value items (str "website"))
       (field_value items (str "problem")) tmp w
     = (inl e,
        {| fs := fs w;
           events := events w
                     ++ [GeneratePdf (field_value items (str "name"))
                           (field_value items (str "email"))
                           (field_value items (str "field"))
                           (field_value items (str "website"))
                           (field_value items (str "problem")) tmp] |})) ->
  let tmp := tmp_name env in
  let r := do_POST upper py_str pdf_bytes b64encode env (VDict items)
             (world0 files) in
  fst r = inl e
  /\ events (snd r)
     = [NamedTemporaryFile tmp;
        GeneratePdf (field_value items (str "name"))
          (field_value items (str "email"))
          (field_value items (str "field"))
          (field_value items (str "website"))
          (field_value items (str "problem")) tmp;
        Unlink tmp]
  /\ fs_lookup tmp (fs (snd r)) = None.
Proof.
  intros Hall Hcall tmp r. subst r. rewrite do_POST_dict. cbv zeta.
  rewrite (required_all_true items Hall). cbn [negb].
  unfold named_temporary_file. fold tmp. repeat io_step.
  unfold try_finally, try_block. rewrite io_bind_run.
  cbv zeta in Hcall. fold tmp in Hcall. rewrite Hcall. cbn [fs events app].
  unfold unlink. rewrite io_bind_log. cbn [fs events fs_lookup].
  rewrite text_eqb_refl. cbn [fst snd fs events].
  rewrite fs_lookup_remove_same. repeat split.
Qed.

End HandlerEdges.

(** The decoded body is not an object (a JSON array, string, number,
    boolean or null): [body.get] raises [AttributeError]; no answer is
    sent, the generator is not called and no file is created. *)
Theorem body_not_object_raises :
  forall upper py_str pdf_bytes b64encode env body w,
    (forall items, body <> VDict items) ->
    do_POST upper py_str pdf_bytes b64encode env body w
    = (inl AttributeError, w).
Proof.
  intros upper py_str pdf_bytes b64encode env body w H.
  destruct body; try reflexivity. exfalso. exact (H _ eq_refl).
Qed.

Lemma body_not_object_raises_witness :
  ex_POST [] (VList [VStr (str "Acme Co")]) = (inl AttributeError, world0 []).
Proof.
  unfold ex_POST. apply body_not_object_raises. intros items H.
  discriminate H.
Defined.

(** A name that is truthy but not a string (a number, [true], a
    non-empty array or object) passes validation; [name.upper()] then
    raises [AttributeError] inside the generator.  No status line and no
    body are sent, the temporary file is removed, and the exception
    leaves the handler. *)
Theorem non_string_name_raises :
  forall upper py_str pdf_bytes b64encode env items files,
    (forall k, In k required -> truthy (field_value items k) = true) ->
    is_str (field_value items (str "name")) = false ->
    let tmp := tmp_name env in
    let r := do_POST upper py_str pdf_bytes b64encode env (VDict items)
               (world0 files) in
    fst r = inl AttributeError
    /\ filter is_socket_call (events (snd r)) = []
    /\ fs_lookup tmp (fs (snd r)) = None
    /\ exists evs, events (snd r) = evs ++ [Unlink tmp].
Proof.
  intros upper py_str pdf_bytes b64encode env items files Hall Hname tmp r.
  destruct (generator_raises_run upper py_str pdf_bytes b64encode env items
              files AttributeError Hall) as (H1 & H2 & H3).
  { intros w tmp'. unfold call_generate_pdf. rewrite io_bind_log.
    destruct (field_value items (str "name")); try reflexivity.
    discriminate Hname. }
  fold tmp in H2, H3. fold r in H1, H2, H3.
  split; [exact H1|]. split; [rewrite H2; reflexivity|].
  split; [exact H3|]. rewrite H2.
  eexists [_; _]. reflexivity.
Qed.

Lemma non_string_name_raises_witness :
  let r := ex_POST [] (VDict number_name_items) in
  fst r = inl AttributeError
  /\ filter is_socket_call (events (snd r)) = []
  /\ fs_lookup (tmp_name (ex_env [])) (fs (snd r)) = None
  /\ exists evs, events (snd r) = evs ++ [Unlink (tmp_name (ex_env []))].
Proof.
  unfold ex_POST.
  apply (non_string_name_raises (fun t => t) ex_py_str ex_pdf_bytes
           ex_b64encode (ex_env []) number_name_items []).
  - intros k [<-|[<-|[<-|[<-|[]]]]]; reflexivity.
  - reflexivity.
Defined.

(** When the rendering backend fails inside [generate_pdf], the handler
    has no [except] clause: no status line and no body are sent (no 500
    answer), the temporary file is removed, and the exception leaves the
    handler. *)
Theorem generator_failure_sends_nothing :
  forall upper py_str pdf_bytes b64encode env items files,
    (forall k, In k required -> truthy (field_value items k) = true) ->
    is_str (field_value items (str "name")) = true ->
    is_str (field_value items (str "field")) = true ->
    raises env site_generate = true ->
    let tmp := tmp_name env in
    let r := do_POST upper py_str pdf_bytes b64encode env (VDict items)
               (world0 files) in
    fst r = inl OSError
    /\ filter is_socket_call (events (snd r)) = []
    /\ fs_lookup tmp (fs (snd r)) = None
    /\ exists evs, events (snd r) = evs ++ [Unlink tmp].
Proof.
  intros upper py_str pdf_bytes b64encode env items files Hall Hn Hf Hg tmp r.
  destruct (generator_raises_run upper py_str pdf_bytes b64encode env items
              files OSError Hall) as (H1 & H2 & H3).
  { intros w tmp'. unfold call_generate_pdf. rewrite io_bind_log.
    destruct (field_value items (str "name")); try discriminate Hn.
    destruct (field_value items (str "field")); try discriminate Hf.
    rewrite io_bind_guard, Hg. reflexivity. }
  fold tmp in H2, H3. fold r in H1, H2, H3.
  split; [exact H1|]. split; [rewrite H2; reflexivity|].
  split; [exact H3|]. rewrite H2.
  eexists [_; _]. reflexivity.
Qed.

Lemma generator_failure_sends_nothing_witness :
  let r := ex_POST [site_generate] (acme_body []) in
  fst r = inl OSError
  /\ filter is_socket_call (events (snd r)) = []
  /\ fs_lookup (tmp_name (ex_env [site_generate])) (fs (snd r)) = None
  /\ exists evs,
       events (snd r) = evs ++ [Unlink (tmp_name (ex_env [site_generate]))].
Proof.
  unfold ex_POST, acme_body.
  apply (generator_failure_sends_nothing (fun t => t) ex_py_str ex_pdf_bytes
           ex_b64encode (ex_env [site_generate])).
  - intros k [<-|[<-|[<-|[<-|[]]]]]; reflexivity.
  - reflexivity.
  - reflexivity.
  - reflexivity.
Defined.

(** The answer does not depend on [email] or [website]: two accepted
    requests with the same name, field and problem, whatever their
    (non-empty) email and whatever their website, get the same status
    line, headers and body. *)
Theorem answer_ignores_email_and_website :
  forall upper py_str pdf_bytes b64encode env items1 items2 files1 files2
         n f p e1 e2,
    dict_lookup (str "name") items1 = Some (VStr n) ->
    dict_lookup (str "name") items2 = Some (VStr n) ->
    dict_lookup (str "field") items1 = Some (VStr f) ->
    dict_lookup (str "field") items2 = Some (VStr f) ->
    dict_lookup (str "problem") items1 = Some (VStr p) ->
    dict_lookup (str "problem") items2 = Some (VStr p) ->
    dict_lookup (str "email") items1 = Some (VStr e1) ->
    dict_lookup (str "email") items2 = Some (VStr e2) ->
    n <> [] -> f <> [] -> p <> [] -> e1 <> [] -> e2 <> [] ->
    no_fault env ->
    let r1 := do_POST upper py_str pdf_bytes b64encode env (VDict items1)
                (world0 files1) in
    let r2 := do_POST upper py_str pdf_bytes b64encode env (VDict items2)
                (world0 files2) in
    filter is_socket_call (events (snd r1))
    = filter is_socket_call (events (snd r2))
    /\ List.length (filter is_socket_call (events (snd r1))) = 4%nat.
Proof.
  intros upper py_str pdf_bytes b64encode env items1 items2 files1 files2
    n f p e1 e2 Hn1 Hn2 Hf1 Hf2 Hp1 Hp2 He1 He2 Nn Nf Np Ne1 Ne2 Hok r1 r2.
  destruct (accepted_strings_run upper py_str pdf_bytes b64encode env items1
              files1 n e1 f p Hn1 He1 Hf1 Hp1 Nn Ne1 Nf Np Hok) as (_ & E1).
  destruct (accepted_strings_run upper py_str pdf_bytes b64encode env items2
              files2 n e2 f p Hn2 He2 Hf2 Hp2 Nn Ne2 Nf Np Hok) as (_ & E2).
  subst r1 r2. rewrite E1, E2. split; reflexivity.
Qed.

Lemma answer_ignores_email_and_website_witness :
  let r1 := ex_POST [] (acme_body []) in
  let r2 := ex_POST []
              (acme_body [(str "website", VStr (str "acme.com"))]) in
  filter is_socket_call (events (snd r1))
  = filter is_socket_call (events (snd r2))
  /\ List.length (filter is_socket_call (events (snd r1))) = 4%nat.
Proof.
  unfold ex_POST, acme_body.
  apply (answer_ignores_email_and_website (fun t => t) ex_py_str ex_pdf_bytes
           ex_b64encode (ex_env []) _ _ [] [] (str "Acme Co") (str "Plumbing")
           acme_problem (str "a@x.com") (str "a@x.com"));
    try reflexivity; try discriminate.
  intro s. destruct s; reflexivity.
Defined.

(** * Further properties of the layout *)

Lemma stacked_top (top top' gap : Q) (cards : list (Q * Q)) :
  top == top' -> stacked top gap cards -> stacked top' gap cards.
Proof.
  intros E. destruct cards as [|[b h] rest]; [trivial|].
  cbn [stacked]. intros [H1 H2]. split; [rewrite <- E; exact H1|exact H2].
Qed.

Lemma truncate_stacked (y gap : Q) (heights : list Q) :
  stacked y gap (truncate y gap heights).
Proof.
  revert y. induction heights as [|h rest IH]; intro y; cbn [truncate].
  - exact I.
  - destruct (Qlt_le_dec (y - h) 60); [exact I|].
    cbn [stacked]. split; [ring|].
    apply (stacked_top (y - (h + gap))); [ring|apply IH].
Qed.

(** On pages 2 to 5 the cards of the loop are stacked without overlap:
    the first has its top edge at the cursor the loop starts from, and
    each next card starts 12 points (page 2) or 10 points (pages 3 to 5)
    below the bottom edge of the card before it. *)
Theorem cards_stacked_without_overlap :
  forall upper (name : text) (email : value) (field : text) (website : value)
         (problem output : text),
    let doc :=
      document (generate_pdf upper name email field website problem output) in
    stacked (cards_y - (problem_card_height problem + 14)) 12
      (stat_cards_drawn doc)
    /\ stacked cards_y 10 (page_cards 2 doc)
    /\ stacked cards_y 10 (page_cards 3 doc)
    /\ stacked cards_y 10 (page_cards 4 doc).
Proof.
  intros upper name email field website problem output doc.
  destruct (generate_pdf_run upper name email field website problem output)
    as (o1 & y1 & o2 & y2 & o3 & y3 & o4 & y4 & o5 & y5 & o6 & y6
        & Hdoc & _ & _ & (C2 & _) & (C3 & _) & (C4 & _) & (C5 & _) & _).
  subst doc. rewrite Hdoc.
  unfold stat_cards_drawn, page_cards. cbn [List.map nth_error page_ops].
  rewrite C2, C3, C4, C5. cbn [tl].
  split; [|split; [|split]]; apply truncate_stacked.
Qed.

(** Pages 4 and 5 never lose a card: for every request the roadmap page
    shows its four phases and the last content page its five reasons. *)
Theorem roadmap_and_reasons_complete :
  forall upper (name : text) (email : value) (field : text) (website : value)
         (problem output : text),
    let doc :=
      document (generate_pdf upper name email field website problem output) in
    List.length (page_cards 3 doc) = 4%nat
    /\ List.length (page_cards 4 doc) = 5%nat.
Proof.
  intros upper name email field website problem output doc.
  destruct (generate_pdf_run upper name email field website problem output)
    as (o1 & y1 & o2 & y2 & o3 & y3 & o4 & y4 & o5 & y5 & o6 & y6
        & Hdoc & _ & _ & _ & _ & (C4 & _) & (C5 & _) & _).
  subst doc. rewrite Hdoc.
  unfold page_cards. cbn [List.map nth_error page_ops].
  rewrite C4, C5. split; vm_compute; reflexivity.
Qed.

(** A problem statement that wraps to at most 18 lines leaves room for
    the three statistic cards: all of them are drawn. *)
Theorem short_problem_keeps_all_stats :
  forall upper (name : text) (email : value) (field : text) (website : value)
         (problem output : text),
    (List.length (problem_lines problem) <= 18)%nat ->
    List.length
      (stat_cards_drawn
         (document
            (generate_pdf upper name email field website problem output)))
    = 3%nat.
Proof.
  intros upper name email field website problem output Hlines.
  destruct (generate_pdf_run upper name email field website problem output)
    as (o1 & y1 & o2 & y2 & o3 & y3 & o4 & y4 & o5 & y5 & o6 & y6
        & Hdoc & _ & _ & (C2 & _) & _).
  rewrite Hdoc. unfold stat_cards_drawn, page_cards.
  cbn [List.map nth_error page_ops]. rewrite C2. cbn [tl].
  pose proof stat_heights as Hs. unfold stats in *.
  inversion Hs as [|c1 l1 H1 Hs1]; subst.
  inversion Hs1 as [|c2 l2 H2 Hs2]; subst.
  inversion Hs2 as [|c3 l3 H3 _]; subst. clear Hs Hs1 Hs2.
  assert (Hlen : len (problem_lines problem) <= 18)
    by (exact (len_le _ 18 Hlines)).
  pose proof cards_y_value as Hy.
  rewrite problem_card_height_lines.
  cbn [List.map truncate].
  repeat (destruct (Qlt_le_dec _ 60) as [?|?]; [exfalso; lra|]).
  reflexivity.
Qed.

Lemma short_problem_keeps_all_stats_witness :
  List.length (stat_cards_drawn (document (acme acme_problem))) = 3%nat.
Proof.
  unfold acme.
  apply (short_problem_keeps_all_stats (fun t => t) (str "Acme Co")
           (VStr (str "a@x.com")) (str "Plumbing") (VStr (str "acme.com"))
           acme_problem (str "/tmp/audit.pdf")).
  vm_compute. repeat constructor.
Defined.

(** The problem card is drawn without the floor check of the loops: a
    problem statement that wraps to 35 lines or more gets a card whose
    bottom edge is below the 60-point floor, and no statistic card
    follows it. *)
Theorem long_problem_card_crosses_floor :
  forall upper (name : text) (email : value) (field : text) (website : value)
         (problem output : text),
    (35 <= List.length (problem_lines problem))%nat ->
    let doc :=
      document (generate_pdf upper name email field website problem output) in
    exists bottom height,
      page_cards 1 doc = [(bottom, height)] /\ bottom < 60.
Proof.
  intros upper name email field website problem output Hlines doc.
  destruct (generate_pdf_run upper name email field website problem output)
    as (o1 & y1 & o2 & y2 & o3 & y3 & o4 & y4 & o5 & y5 & o6 & y6
        & Hdoc & _ & _ & (C2 & _) & _).
  subst doc. rewrite Hdoc. unfold page_cards.
  cbn [List.map nth_error page_ops]. rewrite C2.
  assert (Hlen : 35 <= len (problem_lines problem))
    by (exact (len_ge _ 35 Hlines)).
  pose proof cards_y_value as Hy.
  assert (Hnil : truncate (cards_y - (problem_card_height problem + 14)) 12
                   (List.map stat_height stats) = []).
  { apply stats_truncate_nil. rewrite problem_card_height_lines. lra. }
  rewrite Hnil. do 2 eexists. split; [reflexivity|].
  rewrite problem_card_height_lines. lra.
Qed.

Lemma long_problem_card_crosses_floor_witness :
  exists bottom height,
    page_cards 1 (document (acme overflowing_problem)) = [(bottom, height)]
    /\ bottom < 60.
Proof.
  unfold acme.
  apply (long_problem_card_crosses_floor (fun t => t) (str "Acme Co")
           (VStr (str "a@x.com")) (str "Plumbing") (VStr (str "acme.com"))
           overflowing_problem (str "/tmp/audit.pdf")).
  vm_compute. repeat constructor.
Defined.

(** * Further properties of the word wrap *)

Lemma word_no_newline (t : text) : word t -> ~ In NEWLINE t.
Proof.
  intros [_ Ht] Hin. rewrite Forall_forall in Ht. specialize (Ht _ Hin).
  discriminate Ht.
Qed.

(** A word is never broken: a text without whitespace comes back as one
    line, whatever the width budget, even when it is wider than the
    budget. *)
Theorem word_is_never_broken :
  forall (t : text) (font : Font) (size maxWidth : Q),
    word t -> simpleSplit t font size maxWidth = [t].
Proof.
  intros t font size maxWidth Ht. unfold simpleSplit, split_on.
  rewrite (split_on_from_no_sep NEWLINE t (word_no_newline t Ht)).
  cbn [app]. destruct (Qeq_bool maxWidth 0); [reflexivity|].
  cbn [flat_map]. rewrite app_nil_r.
  apply (_simpleSplit_line_ok maxWidth
           (stringWidth [SPACE] font size)
           (fun s => stringWidth s font size) t eq_refl).
  exists [t]. split; [discriminate|]. split; [constructor; [exact Ht|constructor]|].
  split; [reflexivity|]. apply one_line_single.
Qed.

Lemma one_long_word_is_word : word one_long_word.
Proof.
  split; [discriminate|]. unfold one_long_word.
  apply Forall_forall. intros c Hc. apply repeat_spec in Hc. subst c.
  reflexivity.
Qed.

Lemma word_is_never_broken_witness :
  simpleSplit one_long_word Courier 9 (CW - 30) = [one_long_word]
  /\ CW - 30 < stringWidth one_long_word Courier 9.
Proof.
  split.
  - apply word_is_never_broken. exact one_long_word_is_word.
  - vm_compute. reflexivity.
Defined.

(** ** No word is lost *)

Lemma split_from_app_space (c : char) (a b : text) :
  isspace c = true ->
  forall cur, split_from cur (a ++ c :: b)
              = split_from cur a ++ split_from [] b.
Proof.
  intro Hc. induction a as [|x a IH]; intro cur; cbn [app split_from].
  - rewrite Hc. destruct cur; reflexivity.
  - destruct (isspace x).
    + destruct cur; [apply IH|]. rewrite IH. reflexivity.
    + apply IH.
Qed.

Lemma split_on_newline_words (s : text) :
  forall cur, flat_map split (split_on_from NEWLINE cur s) = split (cur ++ s).
Proof.
  induction s as [|c s IH]; intro cur; cbn [split_on_from].
  - cbn [flat_map]. rewrite !app_nil_r. reflexivity.
  - destruct (N.eqb_spec c NEWLINE) as [->|Hne].
    + cbn [flat_map]. rewrite IH. cbn [app]. unfold split.
      rewrite (split_from_app_space NEWLINE cur s eq_refl). reflexivity.
    + rewrite IH, <- app_assoc. reflexivity.
Qed.

Section WrapWords.

Variables mW ws : Q.
Variable SW : text -> Q.

Lemma loop_keeps_words (ts : list text) :
  Forall word ts ->
  forall L O w, Forall word O ->
    let r := _simpleSplit_loop mW ws SW ts L O w in
    Forall word (snd (fst r))
    /\ flat_map split (fst (fst r)) ++ snd (fst r)
       = flat_map split L ++ O ++ ts.
Proof.
  induction 1 as [|t ts Ht Hts IH]; intros L O w HO.
  - cbn. rewrite app_nil_r. auto.
  - cbn [_simpleSplit_loop].
    destruct (Qle_bool (w + ws + SW t) mW || is_nil O).
    + destruct (IH L (O ++ [t]) (w + ws + SW t)) as (H1 & H2).
      { apply Forall_app. split; [exact HO|].
        constructor; [exact Ht|constructor]. }
      split; [exact H1|]. rewrite H2, <- !app_assoc. reflexivity.
    + destruct (IH (L ++ [join SPACE O]) [t] (SW t)) as (H1 & H2).
      { constructor; [exact Ht|constructor]. }
      split; [exact H1|]. rewrite H2, flat_map_app. cbn [flat_map].
      rewrite (split_join O HO), app_nil_r, <- !app_assoc. reflexivity.
Qed.

End WrapWords.

Lemma _simpleSplit_keeps_words (txt : text) (mW : Q) (SW : text -> Q) :
  flat_map split (_simpleSplit txt mW SW) = split txt.
Proof.
  unfold _simpleSplit. cbv zeta.
  destruct (loop_keeps_words mW (SW [SPACE]) SW (split txt) (split_words txt)
              [] [] (- SW [SPACE]) (Forall_nil _)) as (HO & E).
  cbn [flat_map app] in E.
  destruct (snd (fst (_simpleSplit_loop mW (SW [SPACE]) SW (split txt) [] []
                        (- SW [SPACE])))) as [|t O] eqn:EO.
  - cbn [is_nil]. rewrite app_nil_r in E. exact E.
  - cbn [is_nil]. rewrite flat_map_app. cbn [flat_map].
    rewrite (split_join (t :: O) HO), app_nil_r. exact E.
Qed.

(** Wrapping loses no word and adds none: the words of the lines, read
    in order, are the words of the text. *)
Theorem wrap_keeps_the_words :
  forall (t : text) (font : Font) (size maxWidth : Q),
    flat_map split (simpleSplit t font size maxWidth) = split t.
Proof.
  intros t font size maxWidth. unfold simpleSplit, split_on.
  destruct (Qeq_bool maxWidth 0).
  - apply (split_on_newline_words t []).
  - change (split t) with (split ([] ++ t)).
    rewrite <- (split_on_newline_words t []).
    induction (split_on_from NEWLINE [] t) as [|p ps IH]; [reflexivity|].
    cbn [flat_map]. rewrite flat_map_app, IH, _simpleSplit_keeps_words.
    reflexivity.
Qed.

(** ** Lines within the width budget *)

Lemma stringWidth_app (a b : text) (font : Font) (size : Q) :
  stringWidth (a ++ b) font size
  == stringWidth a font size + stringWidth b font size.
Proof.
  unfold stringWidth. rewrite length_app, Nat2Z.inj_add, Z.mul_add_distr_l,
    inject_Z_plus. ring.
Qed.

Section WrapFit.

Variable font : Font.
Variables size mW : Q.

Let SW := fun s : text => stringWidth s font size.
Let ws := SW [SPACE].

Lemma fold_left_sumw (O : list text) :
  forall w0, fold_left (fun w t => w + ws + SW t) O w0 == w0 + sumw ws SW O.
Proof.
  induction O as [|t O IH]; intro w0; cbn [fold_left sumw fold_right].
  - ring.
  - rewrite IH. fold (sumw ws SW O). ring.
Qed.

Lemma linew_sumw (O : list text) : linew ws SW O == - ws + sumw ws SW O.
Proof. unfold linew. apply fold_left_sumw. Qed.

Lemma join_sumw (O : list text) :
  O <> [] -> SW (join SPACE O) + ws == sumw ws SW O.
Proof.
  induction O as [|p rest IH]; [contradiction|]. intros _.
  destruct rest as [|q rest].
  - cbn [join sumw fold_right]. ring.
  - change (join SPACE (p :: q :: rest))
      with (p ++ [SPACE] ++ join SPACE (q :: rest)).
    unfold SW at 1. rewrite !stringWidth_app. fold (SW p).
    fold (SW [SPACE]). fold ws. fold (SW (join SPACE (q :: rest))).
    change (sumw ws SW (p :: q :: rest))
      with (ws + SW p + sumw ws SW (q :: rest)).
    rewrite <- IH by discriminate. ring.
Qed.

Lemma join_width (O : list text) :
  O <> [] -> SW (join SPACE O) == linew ws SW O.
Proof.
  intro HO. rewrite linew_sumw, <- (join_sumw O HO). ring.
Qed.

(** The line being filled is empty, a single word, or within budget. *)
Let roomy (O : list text) : Prop :=
  O = [] \/ List.length O = 1%nat \/ linew ws SW O <= mW.

Lemma roomy_line (O : list text) :
  O <> [] -> Forall word O -> roomy O ->
  fits_or_single font size mW (join SPACE O).
Proof.
  intros Hne HO [H|[H|H]]; [contradiction| |].
  - right. rewrite (split_join O HO). exact H.
  - left. fold (SW (join SPACE O)). rewrite (join_width O Hne). exact H.
Qed.

Lemma loop_fit (ts : list text) :
  Forall word ts ->
  forall L O w,
    Forall (fits_or_single font size mW) L ->
    Forall word O -> w == linew ws SW O -> roomy O ->
    let r := _simpleSplit_loop mW ws SW ts L O w in
    Forall (fits_or_single font size mW) (fst (fst r))
    /\ Forall word (snd (fst r))
    /\ roomy (snd (fst r)).
Proof.
  induction 1 as [|t ts Ht Hts IH]; intros L O w HL HO Hw Hr.
  - cbn. auto.
  - cbn [_simpleSplit_loop].
    destruct (Qle_bool (w + ws + SW t) mW || is_nil O) eqn:Hfit.
    + apply IH.
      * exact HL.
      * apply Forall_app. split; [exact HO|].
        constructor; [exact Ht|constructor].
      * rewrite linew_snoc, Hw. reflexivity.
      * destruct O as [|x O].
        { right. left. reflexivity. }
        right. right. cbn [is_nil] in Hfit. rewrite orb_false_r in Hfit.
        apply Qle_bool_iff in Hfit. rewrite linew_snoc, <- Hw. exact Hfit.
    + apply orb_false_elim in Hfit. destruct Hfit as [_ Hnil].
      apply IH.
      * apply Forall_app. split; [exact HL|].
        constructor; [|constructor].
        apply roomy_line; try assumption.
        destruct O; [discriminate Hnil|discriminate].
      * constructor; [exact Ht|constructor].
      * unfold linew. cbn [fold_left]. ring.
      * right. left. reflexivity.
Qed.

Lemma _simpleSplit_fit (txt : text) :
  Forall (fits_or_single font size mW) (_simpleSplit txt mW SW).
Proof.
  unfold _simpleSplit. cbv zeta. fold ws.
  destruct (loop_fit (split txt) (split_words txt) [] [] (- ws)
              (Forall_nil _) (Forall_nil _) (Qeq_refl _)
              (or_introl eq_refl)) as (HL & HO & Hr).
  destruct (snd (fst (_simpleSplit_loop mW ws SW (split txt) [] [] (- ws))))
    as [|t O] eqn:EO.
  - exact HL.
  - cbn [is_nil]. apply Forall_app. split; [exact HL|].
    constructor; [|constructor].
    apply roomy_line; [discriminate|exact HO|exact Hr].
Qed.

End WrapFit.

(** With wrapping on (a width other than 0), every line of the wrapped
    text is within the width budget or consists of a single word: only an
    unbroken word can stick out of its card. *)
Theorem wrapped_lines_fit_or_are_one_word :
  forall (t : text) (font : Font) (size maxWidth : Q),
    ~ maxWidth == 0 ->
    Forall (fits_or_single font size maxWidth)
      (simpleSplit t font size maxWidth).
Proof.
  intros t font size maxWidth Hw. unfold simpleSplit.
  destruct (Qeq_bool maxWidth 0) eqn:E.
  - exfalso. apply Hw. apply Qeq_bool_eq. exact E.
  - apply Forall_forall. intros l Hl. apply in_flat_map in Hl.
    destruct Hl as (p & _ & Hl).
    pose proof (_simpleSplit_fit font size maxWidth p) as Hfit.
    rewrite Forall_forall in Hfit. exact (Hfit l Hl).
Qed.

Lemma wrapped_lines_fit_or_are_one_word_witness :
  Forall (fits_or_single Courier 10 (CW - 30))
    (simpleSplit acme_problem Courier 10 (CW - 30)).
Proof.
  apply wrapped_lines_fit_or_are_one_word.
  intro H. apply Qeq_bool_iff in H. vm_compute in H. discriminate H.
Defined.

(** ** Texts inside their cards *)

Lemma inside_a_card_l cards more op :
  inside_a_card cards op -> inside_a_card (cards ++ more) op.
Proof.
  unfold inside_a_card. destruct (text_baseline op); [|trivial].
  intro H. apply Exists_app. left. exact H.
Qed.

Lemma inside_a_card_r cards more op :
  inside_a_card more op -> inside_a_card (cards ++ more) op.
Proof.
  unfold inside_a_card. destruct (text_baseline op); [|trivial].
  intro H. apply Exists_app. right. exact H.
Qed.

Lemma enum_ops_Forall {A} (P : Op -> Prop) (f : nat -> A -> Op) (l : list A) :
  forall i,
    (forall j x, (i <= j < i + List.length l)%nat -> P (f j x)) ->
    Forall P (enum_ops f i l).
Proof.
  induction l as [|x l IH]; intros i H; cbn [enum_ops]; constructor.
  - apply H. cbn [List.length]. lia.
  - apply IH. intros j y Hj. apply H. cbn [List.length]. lia.
Qed.

Lemma Qn_lt_len {A} (j : nat) (l : list A) :
  (j < List.length l)%nat -> 0 <= Qn j /\ Qn j + 1 <= len l.
Proof.
  intro H. unfold Qn, len. split.
  - change 0 with (inject_Z 0). rewrite <- Zle_Qle. lia.
  - change 1 with (inject_Z 1). rewrite <- inject_Z_plus, <- Zle_Qle. lia.
Qed.

Section CardLoopTexts.

Context {A : Type}.
Variable height : A -> Q.
Variable gap : Q.
Variable loop : list A -> Draw unit.

Hypothesis loop_nil : forall st, loop [] st = (tt, st).
Hypothesis loop_stop : forall c rest st,
  cursor st - height c < 60 -> loop (c :: rest) st = (tt, st).
Hypothesis loop_draw : forall c rest st,
  60 <= cursor st - height c ->
  exists ops,
    loop (c :: rest) st
    = loop rest (advance st ops [cursor st - (height c + gap)])
    /\ Forall (inside_a_card (card_rects ops)) ops.

Lemma loop_texts : texts_inside_cards loop.
Proof.
  intro cards. induction cards as [|c rest IH]; intro st.
  - exists [], []. rewrite loop_nil, advance_nil. split; constructor.
  - destruct (Qlt_le_dec (cursor st - height c) 60) as [Hlt|Hge].
    + exists [], []. rewrite (loop_stop _ _ _ Hlt), advance_nil.
      split; constructor.
    + destruct (loop_draw c rest st Hge) as (o1 & E1 & T1).
      destruct (IH (advance st o1 [cursor st - (height c + gap)]))
        as (o2 & ys & E2 & T2).
      exists (o1 ++ o2), ((cursor st - (height c + gap)) :: ys).
      rewrite E1, E2, advance_advance. split; [reflexivity|].
      rewrite card_rects_app. apply Forall_app. split.
      * revert T1. apply Forall_impl. intro op. apply inside_a_card_l.
      * revert T2. apply Forall_impl. intro op. apply inside_a_card_r.
Qed.

End CardLoopTexts.

Ltac inside_card :=
  unfold inside_a_card; cbn [text_baseline];
  first [ exact I
        | apply Exists_cons_hd; cbn [fst snd]; split; lra ].

Ltac enum_texts lines :=
  apply enum_ops_Forall; intros j x Hj;
  destruct (Qn_lt_len j lines ltac:(lia)); inside_card.

Ltac card_texts lines :=
  ops_norm;
  pose proof (len_nonneg lines);
  repeat (apply Forall_cons; [inside_card|]);
  first
    [ apply Forall_nil
    | enum_texts lines
    | apply Forall_app; split;
      [ enum_texts lines
      | repeat (apply Forall_cons; [inside_card|]); apply Forall_nil ] ].

Lemma stats_loop_texts : texts_inside_cards stats_loop.
Proof.
  apply (loop_texts stat_height 12).
  - reflexivity.
  - intros [[[val desc] source] color] rest st Hlt.
    cbn [stats_loop stat_height] in *. rewrite bind_get_y.
    destruct (Qlt_le_dec _ 60) as [_|Hge]; [reflexivity|lra].
  - intros [[[val desc] source] color] rest st Hge.
    cbn [stats_loop stat_height] in *. rewrite bind_get_y.
    destruct (Qlt_le_dec _ 60) as [Hlt|_]; [lra|].
    eexists. split; [draw_run; reflexivity|].
    card_texts (simpleSplit desc Courier 9 (CW - 30)).
Qed.

Lemma opportunities_loop_texts : texts_inside_cards opportunities_loop.
Proof.
  apply (loop_texts opportunity_height 10).
  - reflexivity.
  - intros [[title desc] color] rest st Hlt.
    cbn [opportunities_loop opportunity_height] in *. rewrite bind_get_y.
    destruct (Qlt_le_dec _ 60) as [_|Hge]; [reflexivity|lra].
  - intros [[title desc] color] rest st Hge.
    cbn [opportunities_loop opportunity_height] in *. rewrite bind_get_y.
    destruct (Qlt_le_dec _ 60) as [Hlt|_]; [lra|].
    eexists. split; [draw_run; reflexivity|].
    card_texts (simpleSplit desc Courier 8 (CW - 30)).
Qed.

Lemma phases_loop_texts : texts_inside_cards phases_loop.
Proof.
  apply (loop_texts phase_height 10).
  - reflexivity.
  - intros [[[tag title] desc] color] rest st Hlt.
    cbn [phases_loop phase_height] in *. rewrite bind_get_y.
    destruct (Qlt_le_dec _ 60) as [_|Hge]; [reflexivity|lra].
  - intros [[[tag title] desc] color] rest st Hge.
    cbn [phases_loop phase_height] in *. rewrite bind_get_y.
    destruct (Qlt_le_dec _ 60) as [Hlt|_]; [lra|].
    eexists. split; [draw_run; reflexivity|].
    card_texts (simpleSplit desc Courier 8 (CW - 30)).
Qed.

Lemma reasons_loop_texts : texts_inside_cards reasons_loop.
Proof.
  apply (loop_texts reason_height 10).
  - reflexivity.
  - intros [[title desc] color] rest st Hlt.
    cbn [reasons_loop reason_height] in *. rewrite bind_get_y.
    destruct (Qlt_le_dec _ 60) as [_|Hge]; [reflexivity|lra].
  - intros [[title desc] color] rest st Hge.
    cbn [reasons_loop reason_height] in *. rewrite bind_get_y.
    destruct (Qlt_le_dec _ 60) as [Hlt|_]; [lra|].
    eexists. split; [draw_run; reflexivity|].
    card_texts (simpleSplit desc Courier 8 (CW - 30)).
Qed.

(** The card height formula covers the text of the card: every text the
    four card loops draw (value or title, tag, description lines, source)
    has its baseline between the bottom and the top edge of a card
    outline drawn by the same loop. *)
Theorem card_texts_stay_inside_cards :
  texts_inside_cards stats_loop
  /\ texts_inside_cards opportunities_loop
  /\ texts_inside_cards phases_loop
  /\ texts_inside_cards reasons_loop.
Proof.
  split; [exact stats_loop_texts|].
  split; [exact opportunities_loop_texts|].
  split; [exact phases_loop_texts|exact reasons_loop_texts].
Qed.

(** ** Page 3 and the length of [field] *)

Lemma opportunities_shape field :
  exists c1 c2 c3 c4,
    opportunities field = [c1; c2; c3; c4]
    /\ opportunity_height c1
       == 34 + len (first_opportunity_lines field) * 11 + 10
    /\ opportunity_height c2 == 66
    /\ opportunity_height c3 == 66
    /\ opportunity_height c4 == 66.
Proof.
  do 4 eexists. split; [reflexivity|]. split; [reflexivity|].
  split; [|split]; apply Qeq_bool_eq; vm_compute; reflexivity.
Qed.

(** The first opportunity card quotes [field]; as long as its
    description wraps to at most 23 lines, page 3 shows all four
    opportunity cards. *)
Theorem field_keeps_all_opportunities :
  forall upper (name : text) (email : value) (field : text) (website : value)
         (problem output : text),
    (List.length (first_opportunity_lines field) <= 23)%nat ->
    List.length
      (page_cards 2
         (document
            (generate_pdf upper name email field website problem output)))
    = 4%nat.
Proof.
  intros upper name email field website problem output Hlines.
  destruct (generate_pdf_run upper name email field website problem output)
    as (o1 & y1 & o2 & y2 & o3 & y3 & o4 & y4 & o5 & y5 & o6 & y6
        & Hdoc & _ & _ & _ & (C3 & _) & _).
  rewrite Hdoc. unfold page_cards.
  cbn [List.map nth_error page_ops]. rewrite C3. clear Hdoc C3.
  destruct (opportunities_shape field)
    as (c1 & c2 & c3 & c4 & E & H1 & H2 & H3 & H4).
  assert (Hlen : len (first_opportunity_lines field) <= 23)
    by (exact (len_le _ 23 Hlines)).
  pose proof cards_y_value as Hy.
  rewrite E. cbn [List.map truncate].
  repeat (destruct (Qlt_le_dec _ 60) as [?|?]; [exfalso; lra|]).
  reflexivity.
Qed.

Lemma field_keeps_all_opportunities_witness :
  List.length (page_cards 2 (document (acme acme_problem))) = 4%nat.
Proof.
  unfold acme.
  apply (field_keeps_all_opportunities (fun t => t) (str "Acme Co")
           (VStr (str "a@x.com")) (str "Plumbing") (VStr (str "acme.com"))
           acme_problem (str "/tmp/audit.pdf")).
  vm_compute. repeat constructor.
Defined.

(** ** Types of the accepted fields *)

(** Only [name] and [field] have to be strings.  [email] is checked for
    truthiness and never read again, and [problem] is only formatted
    into the quoted text: with any truthy email and problem (a number,
    [true], ...), and nothing failing outside the program, the handler
    answers 200 with the document generated from the formatted
    problem. *)
Theorem only_name_and_field_must_be_strings :
  forall upper py_str pdf_bytes b64encode env items files n f,
    dict_lookup (str "name") items = Some (VStr n) ->
    dict_lookup (str "field") items = Some (VStr f) ->
    n <> [] -> f <> [] ->
    truthy (field_value items (str "email")) = true ->
    truthy (field_value items (str "problem")) = true ->
    no_fault env ->
    let tmp := tmp_name env in
    let email := field_value items (str "email") in
    let website := field_value items (str "website") in
    let problem := field_value items (str "problem") in
    let doc :=
      document (generate_pdf upper n email f website (format py_str problem)
                  tmp) in
    let r := do_POST upper py_str pdf_bytes b64encode env (VDict items)
               (world0 files) in
    fst r = inr tt
    /\ filter is_socket_call (events (snd r))
       = response 200 (json_dumps (str "pdf") (b64encode (pdf_bytes doc))).
Proof.
  intros upper py_str pdf_bytes b64encode env items files n f Hn Hf Nn Nf
    Te Tp Hok tmp email website problem doc r.
  assert (En : field_value items (str "name") = VStr n)
    by (unfold field_value; rewrite Hn; reflexivity).
  assert (Ef : field_value items (str "field") = VStr f)
    by (unfold field_value; rewrite Hf; reflexivity).
  subst r. rewrite do_POST_dict. cbv zeta.
  fold email. fold website. fold problem.
  rewrite En, Ef. unfold all. cbn [forallb].
  fold email in Te. fold problem in Tp.
  rewrite Te, Tp, !truthy_nonempty by assumption. cbn [andb negb].
  unfold named_temporary_file. fold tmp.
  repeat io_step.
  unfold try_finally, try_block, call_generate_pdf.
  repeat io_step. rewrite !Hok. repeat io_step.
  unfold read_file. repeat io_step. rewrite !Hok.
  rewrite io_bind_run. cbn [fs events fs_lookup]. rewrite text_eqb_refl.
  assert (Hsock : no_socket_fault env) by (repeat split; apply Hok).
  rewrite (respond_run env 200 _ _ Hsock). cbn [fs events].
  unfold unlink. rewrite io_bind_log. cbn [fs events fs_lookup].
  rewrite text_eqb_refl. cbn [fst snd events].
  split; reflexivity.
Qed.

Lemma only_name_and_field_must_be_strings_witness :
  let r := ex_POST [] (VDict odd_types_items) in
  let doc :=
    document (generate_pdf (fun t => t) (str "Acme Co") (VBool true)
                (str "Plumbing") (field_value odd_types_items (str "website"))
                (format ex_py_str (VInt 7)) (tmp_name (ex_env []))) in
  fst r = inr tt
  /\ filter is_socket_call (events (snd r))
     = response 200 (json_dumps (str "pdf") (ex_b64encode (ex_pdf_bytes doc))).
Proof.
  unfold ex_POST.
  apply (only_name_and_field_must_be_strings (fun t => t) ex_py_str
           ex_pdf_bytes ex_b64encode (ex_env []) odd_types_items []
           (str "Acme Co") (str "Plumbing"));
    try reflexivity; try discriminate.
  intro s. destruct s; reflexivity.
Defined.
